(** * A shallow embedding of the DynamoDB client (package [dynamodb])

    The development follows the three source files:
    - [dynamodb.go]: the [Error] value, [buildError], [rawQueryServer],
      [queryServer], [target];
    - [item.go]: the single-item and batch operations and [parseAttributes];
    - [query.go]: [RawQueryTable] (its transport prefix).

    Go values are modelled as follows.  A [string] or [[]byte] is a Rocq
    [string] (a sequence of bytes); an [int], an [int64] or a
    [time.Duration] is a [Z] with the 64-bit wrap-around written out; a
    [map[string]T] is a [gmap string T]; a slice that may be [nil] is an
    [option (list _)].  The package's collaborators (JSON reader, HTTP
    transport, request builder) are the fields of type classes. *)

From stdpp Require Import gmap strings list fin_maps.
From Stdlib Require Import Ascii ZArith Lia.
From Equations Require Import Equations.

#[local] Open Scope Z_scope.
#[local] Set Warnings "-register-all".

(** ** Go integers and durations *)

Module GoInt.

(** Two's complement wrap-around of a 64-bit signed integer. *)
Definition wrap64 (x : Z) : Z := (x + 2 ^ 63) mod 2 ^ 64 - 2 ^ 63.

(** Wrap-around of a 64-bit unsigned integer ([uint] on a 64-bit target). *)
Definition wrapu64 (x : Z) : Z := x mod 2 ^ 64.

Definition add64 (x y : Z) : Z := wrap64 (x + y).
Definition mul64 (x y : Z) : Z := wrap64 (x * y).
Definition addu64 (x y : Z) : Z := wrapu64 (x + y).

(** [x << s] at type [int64] ([time.Duration]) for an unsigned count [s]. *)
Definition shl64 (x s : Z) : Z := wrap64 (Z.shiftl x s).

End GoInt.

Module time.

(** [time.Duration] counts nanoseconds in an [int64]. *)
Definition Nanosecond : Z := 1.
Definition Microsecond : Z := 1000 * Nanosecond.
Definition Millisecond : Z := 1000 * Microsecond.
Definition Second : Z := 1000 * Millisecond.

End time.

(** ** Package [strings] *)

Module strings.

(** [strings.Index(s, substr)] scanning from byte offset [i]: the offset
    of the first occurrence of [substr], or [-1]. *)
Fixpoint Index_from (s substr : string) (i : Z) : Z :=
  if String.prefix substr s then i
  else match s with
       | EmptyString => -1
       | String _ s' => Index_from s' substr (i + 1)
       end.

Definition Index (s substr : string) : Z := Index_from s substr 0.

(** The slice expression [s[n:]]. *)
Fixpoint slice_from (s : string) (n : nat) : string :=
  match n, s with
  | O, _ => s
  | S n', String _ s' => slice_from s' n'
  | S _, EmptyString => EmptyString
  end.

End strings.

(** ** Decoded JSON documents *)

(** The dynamic value that [encoding/json] (through go-simplejson, with
    [UseNumber]) produces for a document: [nil], [bool], [json.Number],
    [string], [[]interface{}] and [map[string]interface{}]. *)
Inductive json : Type :=
| JNull
| JBool (b : bool)
| JNumber (n : string)
| JString (s : string)
| JArray (l : list json)
| JObject (m : gmap string json).

(** ** Errors *)

(** [Error] of [dynamodb.go]. *)
Record Error : Type := mkError {
  StatusCode : Z;
  Status : string;
  Code : string;
  Message : string
}.

(** A Go [error] value.  [ErrNotFound] is one package-level value, told
    apart from every other error by identity, so it has a constructor of
    its own. *)
Inductive error : Type :=
| ErrDdb (e : Error)         (* a [*Error] made by [buildError] *)
| ErrNotFound                (* the package variable [ErrNotFound] *)
| ErrNew (msg : string)      (* a fresh [errors.New(msg)] *)
| ErrExt (msg : string).     (* an error of a collaborator *)

(** [Error.Error()] and the message of the other errors. *)
Definition error_string (e : error) : string :=
  match e with
  | ErrDdb e => String.append (Code e) (String.append ": " (Message e))
  | ErrNotFound => "Item not found"
  | ErrNew msg => msg
  | ErrExt msg => msg
  end.

(** The JSON reader [simplejson.NewJson]. *)
Class JsonReader : Type := {
  NewJson : string -> error + json
}.

(** The integer that [json.Number.Int64] reads from the text of a number,
    or its error. *)
Class NumberReader : Type := {
  Number_Int64 : string -> error + Z
}.

(** The accessors of go-simplejson used by the package. *)
Module simplejson.

Definition Map (j : json) : error + gmap string json :=
  match j with
  | JObject m => inr m
  | _ => inl (ErrExt "type assertion to map[string]interface{} failed")
  end.

Definition Get (j : json) (key : string) : json :=
  match Map j with
  | inr m => match m !! key with
             | Some val => val
             | None => JNull
             end
  | inl _ => JNull
  end.

Definition CheckGet (j : json) (key : string) : option json :=
  match Map j with
  | inr m => m !! key
  | inl _ => None
  end.

Definition MustString (j : json) : string :=
  match j with
  | JString s => s
  | _ => ""
  end.

Definition Array (j : json) : error + list json :=
  match j with
  | JArray a => inr a
  | _ => inl (ErrExt "type assertion to []interface{} failed")
  end.

(** [GetIndex] for an index that is not negative. *)
Definition GetIndex (j : json) (index : nat) : json :=
  match Array j with
  | inr a => match a !! index with
             | Some val => val
             | None => JNull
             end
  | inl _ => JNull
  end.

(** [MustMap()] without a default: [nil] when the value is no object. *)
Definition MustMap (j : json) : option (gmap string json) :=
  match Map j with
  | inr m => Some m
  | inl _ => None
  end.

Definition Int64 `{NumberReader} (j : json) : error + Z :=
  match j with
  | JNumber n => Number_Int64 n
  | _ => inl (ErrExt "invalid value type")
  end.

(** [Int] converts the result of [Int64] to [int], the same 64 bits. *)
Definition Int `{NumberReader} (j : json) : error + Z := Int64 j.

End simplejson.

(** ** dynamodb.go *)

Definition ProvisionedThroughputExceeded : string :=
  "ProvisionedThroughputExceededException".

(** The part of an [*http.Response] that the package reads. *)
Record Response : Type := mkResponse {
  resp_StatusCode : Z;
  resp_Status : string
}.

Definition buildError `{JsonReader} (r : Response) (jsonBody : string) : Error :=
  let ddbError := mkError (resp_StatusCode r) (resp_Status r) "" "" in
  match NewJson jsonBody with
  | inl _ =>
      mkError (StatusCode ddbError) (Status ddbError)
              "Failed to parse body as JSON" (Message ddbError)
  | inr json =>
      let message := simplejson.MustString (simplejson.Get json "message") in
      let codeStr := simplejson.MustString (simplejson.Get json "__type") in
      let hashIndex := strings.Index codeStr "#" in
      let codeStr :=
        if 0 <? hashIndex
        then strings.slice_from codeStr (Z.to_nat (hashIndex + 1))
        else codeStr in
      mkError (StatusCode ddbError) (Status ddbError) codeStr message
  end.

Definition target (name : string) : string :=
  String.append "DynamoDB_20120810." name.

(** [Server]: the credentials' session token and the region's endpoint are
    the parts [rawQueryServer] reads. *)
Record Server : Type := mkServer {
  Auth_Token : string;
  Region_DynamoDBEndpoint : string
}.

(** What one exchange with the HTTP transport comes to: [Do] fails, reading
    the body fails, or a response arrives with its body. *)
Inductive Exchange : Type :=
| DoFailed (e : error)
| ReadFailed (e : error)
| Responded (r : Response) (body : string).

(** The HTTP collaborators.  [http_NewRequest_error url] is the error of
    [http.NewRequest("POST", url, _)], if any; [http_Do n s target query]
    is the outcome of the [n]-th request handed to [http.DefaultClient.Do]
    (signed for server [s], with [X-Amz-Target: target] and body [query]). *)
Class Transport : Type := {
  http_NewRequest_error : string -> option error;
  http_Do : nat -> Server -> string -> string -> Exchange
}.

(** What a call through the transport observes and changes: the number of
    requests sent so far and the durations passed to [time.Sleep]. *)
Record Net : Type := mkNet {
  sent : nat;
  slept : list Z
}.

(** The pair [([]byte, error)] returned by the query functions. *)
Definition QResult : Type := string * option error.

(** [rawQueryServer].  The recursion of the source has no bound, so the
    model takes [fuel]: [None] means the fuel ran out. *)
Fixpoint rawQueryServer `{JsonReader} `{Transport} (fuel : nat) (s : Server)
    (target query : string) (retryCount : Z) (w : Net) : option (QResult * Net) :=
  match fuel with
  | O => None
  | S fuel' =>
      match http_NewRequest_error (String.append (Region_DynamoDBEndpoint s) "/") with
      | Some err => Some (("", Some err), w)
      | None =>
          let w1 := mkNet (S (sent w)) (slept w) in
          match http_Do (sent w) s target query with
          | DoFailed err => Some (("", Some err), w1)
          | ReadFailed err => Some (("", Some err), w1)
          | Responded resp body =>
              if negb (resp_StatusCode resp =? 200) then
                let ddbErr := buildError resp body in
                if String.eqb (Code ddbErr) ProvisionedThroughputExceeded then
                  if 0 <=? retryCount then
                    let retryCount := GoInt.add64 retryCount 1 in
                    let w2 := mkNet (sent w1)
                                (slept w1 ++ [GoInt.mul64 retryCount time.Second]) in
                    rawQueryServer fuel' s target query retryCount w2
                  else Some (("", Some (ErrDdb ddbErr)), w1)
                else Some (("", Some (ErrDdb ddbErr)), w1)
              else Some ((body, None), w1)
          end
      end
  end.

(** ** The attribute type and its wire tags *)

(** Modelled from the spec: the six wire tags [TYPE_STRING] ...
    [TYPE_BINARY_SET], whose declarations are in another file of the package
    (with the rest of the attribute type); the spec gives them as
    [{"S": ..} / {"N": ..} / {"B": ..} / {"SS": [..]} / {"NS": [..]} / {"BS": [..]}]. *)
Definition TYPE_STRING : string := "S".
Definition TYPE_NUMBER : string := "N".
Definition TYPE_BINARY : string := "B".
Definition TYPE_STRING_SET : string := "SS".
Definition TYPE_NUMBER_SET : string := "NS".
Definition TYPE_BINARY_SET : string := "BS".

(** [Attribute], with the four fields that [parseAttributes] fills.
    [SetValues] is a slice: [None] is [nil]. *)
Record Attribute : Type := mkAttribute {
  Type_ : string;
  Name : string;
  Value : string;
  SetValues : option (list string)
}.

(** ** item.go: [parseAttributes] *)

(** The type assertions [x.(string)] and [x.([]interface{})] on the result
    of a map lookup (a missing key gives [nil], which fails both). *)
Definition assert_string (x : option json) : option string :=
  match x with
  | Some (JString s) => Some s
  | _ => None
  end.

Definition assert_slice (x : option json) : option (list json) :=
  match x with
  | Some (JArray l) => Some l
  | _ => None
  end.

(** The loop that fills [arry := make([]string, len(vals))]: a member that
    is not a string leaves the zero value. *)
Definition fill_arry (vals : list json) : list string :=
  (fun ivalue => match ivalue with JString val => val | _ => "" end) <$> vals.

(** The body of the [for key, value := range s] loop: the entry written to
    [results[key]], if any. *)
Definition parseAttributes_entry (key : string) (value : json) : option Attribute :=
  match value with
  | JObject v =>
      match assert_string (v !! TYPE_STRING) with
      | Some val => Some (mkAttribute TYPE_STRING key val None)
      | None =>
      match assert_string (v !! TYPE_NUMBER) with
      | Some val => Some (mkAttribute TYPE_NUMBER key val None)
      | None =>
      match assert_string (v !! TYPE_BINARY) with
      | Some val => Some (mkAttribute TYPE_BINARY key val None)
      | None =>
      match assert_slice (v !! TYPE_STRING_SET) with
      | Some vals => Some (mkAttribute TYPE_STRING_SET key "" (Some (fill_arry vals)))
      | None =>
      match assert_slice (v !! TYPE_NUMBER_SET) with
      | Some vals => Some (mkAttribute TYPE_NUMBER_SET key "" (Some (fill_arry vals)))
      | None =>
      match assert_slice (v !! TYPE_BINARY_SET) with
      | Some vals => Some (mkAttribute TYPE_BINARY_SET key "" (Some (fill_arry vals)))
      | None => None
      end end end end end end
  | _ => None
  end.

(** [parseAttributes]: [results] starts empty and the loop over the
    entries of [s] writes [results[key]].  The order in which a Go map is
    ranged over is not fixed; [lookup_parseAttributes] below shows that the
    result does not depend on it. *)
Definition parseAttributes (s : gmap string json) : gmap string Attribute :=
  map_fold (fun key value results =>
              match parseAttributes_entry key value with
              | Some a => <[key := a]> results
              | None => results
              end) ∅ s.

(** ** The request builder and the table handle *)

(** The builder ([Query] and its [Add*] methods), [Table] and [Key] are
    declared in other files of the package.  The
    operations below only hand values to them, so they are taken as an
    interface; a method that mutates the query is a function to the new
    query.  [ItemActions] stands for [map[*Table]map[string][][]Attribute]. *)
Class Builder : Type := {
  Query : Type;
  Table : Type;
  Key : Type;
  ItemActions : Type;
  Table_Server : Table -> Server;
  Table_Key_Clone : Table -> string -> string -> list Attribute;
  NewQuery : Table -> Query;
  NewEmptyQuery : Query;
  AddKey : Query -> Table -> Key -> Query;
  ConsistentRead : Query -> bool -> Query;
  AddItem : Query -> list Attribute -> Query;
  AddExpected : Query -> list Attribute -> Query;
  AddUpdates : Query -> list Attribute -> string -> Query;
  AddWriteRequestItems : Query -> ItemActions -> Query;
  Query_String : Query -> string
}.

(** [queryServer] as [dynamodb.go] declares it, with two parameters. *)
Definition queryServer `{JsonReader} `{Transport} `{Builder} (fuel : nat)
    (s : Server) (target : string) (query : Query) (w : Net)
  : option (QResult * Net) :=
  rawQueryServer fuel s target (Query_String query) 0 w.

(** ** query.go: the start of [RawQueryTable] *)

(** The choice of [retryCount] from [isRetry]. *)
Definition RawQueryTable_retryCount (isRetry : bool) : Z :=
  let retryCount := 0 in
  if negb isRetry then -1 else retryCount.

(** [RawQueryTable] up to the test of [err] after [rawQueryServer]: the
    response is then handed to the decoding of [Count] and [Items]. *)
Definition RawQueryTable_send `{JsonReader} `{Transport} `{Builder} (fuel : nat)
    (t : Table) (query target : string) (isRetry : bool) (w : Net)
  : option (QResult * Net) :=
  rawQueryServer fuel (Table_Server t)
                 (String.append "DynamoDB_20120810." target) query
                 (RawQueryTable_retryCount isRetry) w.

(** ** item.go: the operations on items *)

(** [item.go] calls [queryServer] with a third argument, [isRetry], and
    reads nothing but the pair it returns.  The operations are therefore
    modelled over the replies of these calls: [queryServer_reply n s target
    q isRetry] is what the [n]-th call returns. *)
Class Remote `{Builder} : Type := {
  queryServer_reply : nat -> Server -> string -> Query -> bool -> QResult
}.

(** What an operation observes and changes: the number of calls made to
    [queryServer] and the durations passed to [time.After]. *)
Record Calls : Type := mkCalls {
  calls : nat;
  waited : list Z
}.

(** State passing over [Calls]. *)
Definition M (A : Type) : Type := Calls -> A * Calls.

#[global] Instance M_ret : MRet M := fun A (a : A) w => (a, w).

#[global] Instance M_bind : MBind M :=
  fun A B (k : A -> M B) (m : M A) w => let (a, w') := m w in k a w'.

Definition queryServer3 `{Remote} (s : Server) (target : string) (q : Query)
    (isRetry : bool) : M QResult :=
  fun w => (queryServer_reply (calls w) s target q isRetry,
            mkCalls (S (calls w)) (waited w)).

(** [<-time.After(d)]. *)
Definition time_After (d : Z) : M unit :=
  fun w => (tt, mkCalls (calls w) (waited w ++ [d])).

Definition maxNumberOfRetry : Z := 4.

(** The value given to [retry] in the loop of [putItem]. *)
Definition putItem_retry (err : option error) : bool :=
  match err with
  | Some (ErrDdb err) =>
      (StatusCode err =? 500)
      || String.eqb (Code err) "ThrottlingException"
      || String.eqb (Code err) "ProvisionedThroughputExceededException"
  | _ => false
  end.

(** The duration [(1 << currentRetry) * 50 * time.Millisecond]. *)
Definition putItem_delay (currentRetry : Z) : Z :=
  GoInt.mul64 (GoInt.mul64 (GoInt.shl64 1 currentRetry) 50) time.Millisecond.

(** The [for] loop of [putItem], from the value of [currentRetry] (a
    [uint]) on; it returns the last [jsonResponse, err]. *)
Equations? putItem_loop `{Remote} (s : Server) (q : Query) (isRetry : bool)
    (currentRetry : Z) (w : Calls) : QResult * Calls
    by wf (Z.to_nat (maxNumberOfRetry - currentRetry)) lt :=
  putItem_loop s q isRetry currentRetry w
    with queryServer3 s (target "PutItem") q isRetry w => {
    | (res, w1) with Z_le_dec maxNumberOfRetry currentRetry => {
      | left _ := (res, w1);
      | right _ with putItem_retry (snd res) => {
        | false := (res, w1);
        | true :=
            putItem_loop s q isRetry (GoInt.addu64 currentRetry 1)
                         (snd (time_After (putItem_delay currentRetry) w1)) } } }.
Proof.
  unfold GoInt.addu64, GoInt.wrapu64, maxNumberOfRetry in *.
  pose proof (Z.mod_pos_bound (currentRetry + 1) (2 ^ 64) ltac:(lia)).
  destruct (Z_lt_dec currentRetry 0); [lia |].
  rewrite Z.mod_small; lia.
Qed.

Definition putItem `{JsonReader} `{Remote} (t : Table) (hashKey rangeKey : string)
    (attributes : list Attribute) (expected : option (list Attribute))
    (isRetry : bool) : M (bool * option error) :=
  if (length attributes =? 0)%nat then
    mret (false, Some (ErrNew "At least one attribute is required."))
  else
    let q := NewQuery t in
    let keys := Table_Key_Clone t hashKey rangeKey in
    let attributes := attributes ++ keys in
    let q := AddItem q attributes in
    let q := match expected with
             | Some expected => AddExpected q expected
             | None => q
             end in
    '(jsonResponse, err) ← putItem_loop (Table_Server t) q isRetry 0;
    match err with
    | Some err => mret (false, Some err)
    | None =>
        match NewJson jsonResponse with
        | inl err => mret (false, Some err)
        | inr _ => mret (true, None)
        end
    end.

Definition PutItem `{JsonReader} `{Remote} (t : Table) (hashKey rangeKey : string)
    (attributes : list Attribute) (isRetry : bool) : M (bool * option error) :=
  putItem t hashKey rangeKey attributes None isRetry.

Definition ConditionalPutItem `{JsonReader} `{Remote} (t : Table)
    (hashKey rangeKey : string) (attributes : list Attribute)
    (expected : option (list Attribute)) (isRetry : bool)
  : M (bool * option error) :=
  putItem t hashKey rangeKey attributes expected isRetry.

Definition modifyAttributes `{JsonReader} `{Remote} (t : Table) (key : Key)
    (attributes : list Attribute) (expected : option (list Attribute))
    (action : string) (isRetry : bool) : M (bool * option error) :=
  if (length attributes =? 0)%nat then
    mret (false, Some (ErrNew "At least one attribute is required."))
  else
    let q := NewQuery t in
    let q := AddKey q t key in
    let q := AddUpdates q attributes action in
    let q := match expected with
             | Some expected => AddExpected q expected
             | None => q
             end in
    '(jsonResponse, err) ← queryServer3 (Table_Server t) (target "UpdateItem") q isRetry;
    match err with
    | Some err => mret (false, Some err)
    | None =>
        match NewJson jsonResponse with
        | inl err => mret (false, Some err)
        | inr _ => mret (true, None)
        end
    end.

Definition AddAttributes `{JsonReader} `{Remote} (t : Table) (key : Key)
    (attributes : list Attribute) (isRetry : bool) : M (bool * option error) :=
  modifyAttributes t key attributes None "ADD" isRetry.

Definition UpdateAttributes `{JsonReader} `{Remote} (t : Table) (key : Key)
    (attributes : list Attribute) (isRetry : bool) : M (bool * option error) :=
  modifyAttributes t key attributes None "PUT" isRetry.

Definition DeleteAttributes `{JsonReader} `{Remote} (t : Table) (key : Key)
    (attributes : list Attribute) (isRetry : bool) : M (bool * option error) :=
  modifyAttributes t key attributes None "DELETE" isRetry.

Definition ConditionalAddAttributes `{JsonReader} `{Remote} (t : Table) (key : Key)
    (attributes : list Attribute) (expected : option (list Attribute))
    (isRetry : bool) : M (bool * option error) :=
  modifyAttributes t key attributes expected "ADD" isRetry.

Definition ConditionalUpdateAttributes `{JsonReader} `{Remote} (t : Table) (key : Key)
    (attributes : list Attribute) (expected : option (list Attribute))
    (isRetry : bool) : M (bool * option error) :=
  modifyAttributes t key attributes expected "PUT" isRetry.

Definition ConditionalDeleteAttributes `{JsonReader} `{Remote} (t : Table) (key : Key)
    (attributes : list Attribute) (expected : option (list Attribute))
    (isRetry : bool) : M (bool * option error) :=
  modifyAttributes t key attributes expected "DELETE" isRetry.

(** [fmt.Sprintf("Unexpected response %s", jsonResponse)]. *)
Definition unexpected_response (jsonResponse : string) : string :=
  String.append "Unexpected response " jsonResponse.

(** [getItem]; a [nil] map is [None]. *)
Definition getItem `{JsonReader} `{Remote} (t : Table) (key : Key)
    (consistentRead : bool) (isRetry : bool)
  : M (option (gmap string Attribute) * option error) :=
  let q := NewQuery t in
  let q := AddKey q t key in
  let q := if consistentRead then ConsistentRead q consistentRead else q in
  '(jsonResponse, err) ← queryServer3 (Table_Server t) (target "GetItem") q isRetry;
  match err with
  | Some err => mret (None, Some err)
  | None =>
      match NewJson jsonResponse with
      | inl err => mret (None, Some err)
      | inr json =>
          match simplejson.CheckGet json "Item" with
          | None => mret (None, Some ErrNotFound)
          | Some itemJson =>
              match simplejson.Map itemJson with
              | inl _ => mret (None, Some (ErrNew (unexpected_response jsonResponse)))
              | inr item => mret (Some (parseAttributes item), None)
              end
          end
      end
  end.

Definition GetItem `{JsonReader} `{Remote} (t : Table) (key : Key) (isRetry : bool)
  : M (option (gmap string Attribute) * option error) :=
  getItem t key false isRetry.

Definition GetItemConsistent `{JsonReader} `{Remote} (t : Table) (key : Key)
    (consistentRead : bool) (isRetry : bool)
  : M (option (gmap string Attribute) * option error) :=
  getItem t key consistentRead isRetry.

Record BatchWriteItem `{Builder} : Type := mkBatchWriteItem {
  bw_Server : Server;
  bw_ItemActions : ItemActions
}.

(** [BatchWriteItem.Execute]; a [nil] map is [None]. *)
Definition BatchWriteItem_Execute `{JsonReader} `{Remote}
    (batchWriteItem : BatchWriteItem) (isRetry : bool)
  : M (option (gmap string json) * option error) :=
  let q := NewEmptyQuery in
  let q := AddWriteRequestItems q (bw_ItemActions batchWriteItem) in
  '(jsonResponse, err) ← queryServer3 (bw_Server batchWriteItem)
                            "DynamoDB_20120810.BatchWriteItem" q isRetry;
  match err with
  | Some err => mret (None, Some err)
  | None =>
      match NewJson jsonResponse with
      | inl err => mret (None, Some err)
      | inr json =>
          match simplejson.Map (simplejson.Get json "UnprocessedItems") with
          | inl _ => mret (None, Some (ErrNew (unexpected_response jsonResponse)))
          | inr unprocessed =>
              if (size unprocessed =? 0)%nat then mret (None, None)
              else mret (Some unprocessed, Some (ErrNew "One or more unprocessed items."))
          end
      end
  end.

(** ** item.go: the other operations *)

Definition deleteItem `{JsonReader} `{Remote} (t : Table) (key : Key)
    (expected : option (list Attribute)) (isRetry : bool) : M (bool * option error) :=
  let q := NewQuery t in
  let q := AddKey q t key in
  let q := match expected with
           | Some expected => AddExpected q expected
           | None => q
           end in
  '(jsonResponse, err) ← queryServer3 (Table_Server t) (target "DeleteItem") q isRetry;
  match err with
  | Some err => mret (false, Some err)
  | None =>
      match NewJson jsonResponse with
      | inl err => mret (false, Some err)
      | inr _ => mret (true, None)
      end
  end.

Definition DeleteItem `{JsonReader} `{Remote} (t : Table) (key : Key) (isRetry : bool)
  : M (bool * option error) :=
  deleteItem t key None isRetry.

Definition ConditionalDeleteItem `{JsonReader} `{Remote} (t : Table) (key : Key)
    (expected : option (list Attribute)) (isRetry : bool) : M (bool * option error) :=
  deleteItem t key expected isRetry.

(** The rest of the request builder, with the comparison type of the key
    conditions, the map [map[*Table][]Key] of a batch read ([KeysByTable])
    and [parseKey]; they are declared in other files of the package. *)
Class QueryBuilder `{Builder} : Type := {
  AttributeComparison : Type;
  KeysByTable : Type;
  AddKeyConditions : Query -> list AttributeComparison -> Query;
  AddIndex : Query -> string -> Query;
  AddLimit : Query -> Z -> Query;
  AddSelect : Query -> string -> Query;
  AddGetRequestItems : Query -> KeysByTable -> Query;
  parseKey : Table -> gmap string json -> option Key
}.

Record BatchGetItem `{QueryBuilder} : Type := mkBatchGetItem {
  bg_Server : Server;
  bg_Keys : KeysByTable
}.

(** The inner loop of [BatchGetItem.Execute]: every entry has to be an
    object, and is decoded. *)
Fixpoint BatchGetItem_entries (jsonEntriesArray : list json)
  : option (list (gmap string Attribute)) :=
  match jsonEntriesArray with
  | [] => Some []
  | entry :: rest =>
      match entry with
      | JObject item =>
          match BatchGetItem_entries rest with
          | Some tableResult => Some (parseAttributes item :: tableResult)
          | None => None
          end
      | _ => None
      end
  end.

(** One turn of the outer loop: the entries of a table have to be a list. *)
Definition BatchGetItem_table (entries : json) : option (list (gmap string Attribute)) :=
  match entries with
  | JArray jsonEntriesArray => BatchGetItem_entries jsonEntriesArray
  | _ => None
  end.

(** The outer loop over [tables].  The source returns the same error at the
    first table that fails, whatever the order; here [None] is that failure. *)
Definition BatchGetItem_results (tables : gmap string json)
  : option (gmap string (list (gmap string Attribute))) :=
  map_fold (fun table entries acc =>
              match acc with
              | None => None
              | Some results =>
                  match BatchGetItem_table entries with
                  | Some tableResult => Some (<[table := tableResult]> results)
                  | None => None
                  end
              end) (Some ∅) tables.

(** [BatchGetItem.Execute]; a [nil] map is [None]. *)
Definition BatchGetItem_Execute `{JsonReader} `{Remote} `{!QueryBuilder}
    (batchGetItem : BatchGetItem) (isRetry : bool)
  : M (option (gmap string (list (gmap string Attribute))) * option error) :=
  let q := NewEmptyQuery in
  let q := AddGetRequestItems q (bg_Keys batchGetItem) in
  '(jsonResponse, err) ← queryServer3 (bg_Server batchGetItem)
                            "DynamoDB_20120810.BatchGetItem" q isRetry;
  match err with
  | Some err => mret (None, Some err)
  | None =>
      match NewJson jsonResponse with
      | inl err => mret (None, Some err)
      | inr json =>
          match simplejson.Map (simplejson.Get json "Responses") with
          | inl _ => mret (None, Some (ErrNew (unexpected_response jsonResponse)))
          | inr tables =>
              match BatchGetItem_results tables with
              | None => mret (None, Some (ErrNew (unexpected_response jsonResponse)))
              | Some results => mret (Some results, None)
              end
          end
      end
  end.

(** ** query.go *)

Definition CountQuery `{JsonReader} `{NumberReader} `{Remote} `{!QueryBuilder}
    (t : Table) (attributeComparisons : list AttributeComparison) (isRetry : bool)
  : M (Z * option error) :=
  let q := NewQuery t in
  let q := AddKeyConditions q attributeComparisons in
  let q := AddSelect q "COUNT" in
  '(jsonResponse, err) ← queryServer3 (Table_Server t) "DynamoDB_20120810.Query" q isRetry;
  match err with
  | Some err => mret (0, Some err)
  | None =>
      match NewJson jsonResponse with
      | inl err => mret (0, Some err)
      | inr json =>
          match simplejson.Int64 (simplejson.Get json "Count") with
          | inl err => mret (0, Some err)
          | inr itemCount => mret (itemCount, None)
          end
      end
  end.

(** A call either returns or panics. *)
Inductive Run (A : Type) : Type :=
| Returned (a : A)
| Panicked (msg : string).
Arguments Returned {A} a.
Arguments Panicked {A} msg.

(** The three results of [RawQueryTable]: the items (a slice, [None] is
    [nil]), the key to go on from and the error. *)
Definition QueryResult `{Builder} : Type :=
  option (list (gmap string Attribute)) * option Key * option error.

(** The loop [for i, _ := range results] from index [i] on, over the [n]
    slots that are left: slot [i] takes the decoded [Items[i]], which has to
    be an object. *)
Fixpoint RawQueryTable_items (items : json) (i n : nat)
  : option (list (gmap string Attribute)) :=
  match n with
  | O => Some []
  | S n' =>
      match simplejson.Map (simplejson.GetIndex items i) with
      | inl _ => None
      | inr item =>
          match RawQueryTable_items items (S i) n' with
          | Some results => Some (parseAttributes item :: results)
          | None => None
          end
      end
  end.

(** [RawQueryTable] from the response on.  [make] panics on a negative
    length; memory is taken to suffice for any other length. *)
Definition RawQueryTable_decode `{JsonReader} `{NumberReader} `{QueryBuilder}
    (t : Table) (target jsonResponse : string) : Run QueryResult :=
  match NewJson jsonResponse with
  | inl err => Returned (None, None, Some err)
  | inr json =>
      match simplejson.Int (simplejson.Get json "Count") with
      | inl _ =>
          if String.eqb target "UpdateItem" then Returned (Some [], None, None)
          else Returned (None, None, Some (ErrNew (unexpected_response jsonResponse)))
      | inr itemCount =>
          if itemCount <? 0 then Panicked "makeslice: len out of range"
          else
            match RawQueryTable_items (simplejson.Get json "Items") 0
                                      (Z.to_nat itemCount) with
            | None =>
                Returned (None, None, Some (ErrNew (unexpected_response jsonResponse)))
            | Some results =>
                let lastEvaluatedKey :=
                  match simplejson.MustMap (simplejson.Get json "LastEvaluatedKey") with
                  | Some lastKeyMap => parseKey t lastKeyMap
                  | None => None
                  end in
                Returned (Some results, lastEvaluatedKey, None)
            end
      end
  end.

(** [RawQueryTable]: [None] means that the fuel of [rawQueryServer] ran out. *)
Definition RawQueryTable `{JsonReader} `{NumberReader} `{Transport} `{QueryBuilder}
    (fuel : nat) (t : Table) (query target : string) (isRetry : bool) (w : Net)
  : option (Run QueryResult * Net) :=
  match RawQueryTable_send fuel t query target isRetry w with
  | None => None
  | Some ((jsonResponse, err), w') =>
      match err with
      | Some err => Some (Returned (None, None, Some err), w')
      | None => Some (RawQueryTable_decode t target jsonResponse, w')
      end
  end.

Definition QueryTable `{JsonReader} `{NumberReader} `{Transport} `{QueryBuilder}
    (fuel : nat) (t : Table) (q : Query) (isRetry : bool) (w : Net)
  : option (Run QueryResult * Net) :=
  RawQueryTable fuel t (Query_String q) "Query" isRetry w.

(** [RunQuery]: the items and the error of [QueryTable]. *)
Definition RunQuery `{JsonReader} `{NumberReader} `{Transport} `{QueryBuilder}
    (fuel : nat) (q : Query) (t : Table) (isRetry : bool) (w : Net)
  : option (Run (option (list (gmap string Attribute)) * option error) * Net) :=
  match QueryTable fuel t q isRetry w with
  | None => None
  | Some (Panicked msg, w') => Some (Panicked msg, w')
  | Some (Returned (result, _, err), w') =>
      match err with
      | Some err => Some (Returned (None, Some err), w')
      | None => Some (Returned (result, err), w')
      end
  end.

(** [Table.Query]; the name [Query] is the type of the builder. *)
Definition Table_Query `{JsonReader} `{NumberReader} `{Transport} `{QueryBuilder}
    (fuel : nat) (t : Table) (attributeComparisons : list AttributeComparison)
    (isRetry : bool) (w : Net) :=
  let q := NewQuery t in
  let q := AddKeyConditions q attributeComparisons in
  RunQuery fuel q t isRetry w.

Definition QueryOnIndex `{JsonReader} `{NumberReader} `{Transport} `{QueryBuilder}
    (fuel : nat) (t : Table) (attributeComparisons : list AttributeComparison)
    (indexName : string) (isRetry : bool) (w : Net) :=
  let q := NewQuery t in
  let q := AddKeyConditions q attributeComparisons in
  let q := AddIndex q indexName in
  RunQuery fuel q t isRetry w.

Definition LimitedQuery `{JsonReader} `{NumberReader} `{Transport} `{QueryBuilder}
    (fuel : nat) (t : Table) (attributeComparisons : list AttributeComparison)
    (limit : Z) (isRetry : bool) (w : Net) :=
  let q := NewQuery t in
  let q := AddKeyConditions q attributeComparisons in
  let q := AddLimit q limit in
  RunQuery fuel q t isRetry w.

Definition LimitedQueryOnIndex `{JsonReader} `{NumberReader} `{Transport} `{QueryBuilder}
    (fuel : nat) (t : Table) (attributeComparisons : list AttributeComparison)
    (indexName : string) (limit : Z) (isRetry : bool) (w : Net) :=
  let q := NewQuery t in
  let q := AddKeyConditions q attributeComparisons in
  let q := AddIndex q indexName in
  let q := AddLimit q limit in
  RunQuery fuel q t isRetry w.

(** ** The codec as the specification words it *)

(** The three set tags (the test [SetType] of an attribute). *)
Definition isSetType (ty : string) : bool :=
  String.eqb ty TYPE_STRING_SET
  || String.eqb ty TYPE_NUMBER_SET
  || String.eqb ty TYPE_BINARY_SET.

(** Modelled from the spec: [Encode], the attribute-to-wire direction of
    the codec, whose code is in another file of the package (with the
    request builder).  It "emits [{ typeTagOf(attr.Type): payload }]; set types emit an
    ordered list of their string members", in the order supplied.  A [nil]
    slice is written as JSON [null]. *)
Definition Encode (a : Attribute) : json :=
  JObject {[ Type_ a :=
    if isSetType (Type_ a) then
      match SetValues a with
      | Some members => JArray (JString <$> members)
      | None => JNull
      end
    else JString (Value a) ]}.

(** The six tags in the priority order the specification gives. *)
Definition tag_priority : list string :=
  [TYPE_STRING; TYPE_NUMBER; TYPE_BINARY;
   TYPE_STRING_SET; TYPE_NUMBER_SET; TYPE_BINARY_SET].

(** What one tag decodes to when it is present with a payload of the right
    type: a string for a scalar tag, a list for a set tag. *)
Definition decode_tag (key : string) (v : gmap string json) (tag : string)
  : option Attribute :=
  if isSetType tag then
    vals ← assert_slice (v !! tag);
    Some (mkAttribute tag key "" (Some (fill_arry vals)))
  else
    val ← assert_string (v !! tag);
    Some (mkAttribute tag key val None).

(** The first tag of a list that decodes. *)
Fixpoint first_decoding (key : string) (v : gmap string json) (tags : list string)
  : option Attribute :=
  match tags with
  | [] => None
  | tag :: tags' =>
      match decode_tag key v tag with
      | Some a => Some a
      | None => first_decoding key v tags'
      end
  end.

(** A wire value that carries none of the six tags. *)
Definition unrecognized (value : json) : bool :=
  match value with
  | JObject v => forallb (fun tag => bool_decide (v !! tag = None)) tag_priority
  | _ => true
  end.

(** An attribute of one of the six types with the payload its type calls
    for: a scalar has no set members, a set has members and no scalar. *)
Definition supported (a : Attribute) : bool :=
  if isSetType (Type_ a) then
    String.eqb (Value a) "" && bool_decide (is_Some (SetValues a))
  else
    (String.eqb (Type_ a) TYPE_STRING
     || String.eqb (Type_ a) TYPE_NUMBER
     || String.eqb (Type_ a) TYPE_BINARY)
    && bool_decide (SetValues a = None).

(** The error code as the specification words it: the suffix after the
    last ['#'] of the type string, the whole string when there is none. *)
Fixpoint after_last_hash (s : string) : option string :=
  match s with
  | EmptyString => None
  | String c s' =>
      match after_last_hash s' with
      | Some suffix => Some suffix
      | None => if Ascii.eqb c "#"%char then Some s' else None
      end
  end.

Definition code_of_type (s : string) : string :=
  match after_last_hash s with
  | Some suffix => suffix
  | None => s
  end.

(** A tag is type-correct in a wire object when it is present with a
    payload of the right type. *)
Definition type_correct (v : gmap string json) (tag : string) : bool :=
  if isSetType tag then bool_decide (is_Some (assert_slice (v !! tag)))
  else bool_decide (is_Some (assert_string (v !! tag))).

(** A well-formed wire value: an object in which some tag is type-correct. *)
Definition well_formed (value : json) : bool :=
  match value with
  | JObject v => existsb (type_correct v) tag_priority
  | _ => false
  end.

(** ** The retry tier of [putItem] as the specification words it *)

(** The query that [putItem] builds before its loop. *)
Definition putItem_query `{Builder} (t : Table) (hashKey rangeKey : string)
    (attributes : list Attribute) (expected : option (list Attribute)) : Query :=
  let q := AddItem (NewQuery t) (attributes ++ Table_Key_Clone t hashKey rangeKey) in
  match expected with
  | Some expected => AddExpected q expected
  | None => q
  end.

(** A retryable service error: HTTP status 500, or one of the two
    throttling codes. *)
Definition retryable_error (e : Error) : Prop :=
  StatusCode e = 500
  \/ Code e = "ThrottlingException"
  \/ Code e = "ProvisionedThroughputExceededException".

(** A reply that carries a retryable service error. *)
Definition retryable_reply (r : QResult) : Prop :=
  exists e, snd r = Some (ErrDdb e) /\ retryable_error e.

(** The delay [2^k * 50ms] of the specification. *)
Definition backoff (k : nat) : Z := 2 ^ Z.of_nat k * 50 * time.Millisecond.

(** The delays of [n] successive turns of the loop from [currentRetry] on. *)
Fixpoint delays_from (currentRetry : Z) (n : nat) : list Z :=
  match n with
  | O => []
  | S n' => putItem_delay currentRetry :: delays_from (currentRetry + 1) n'
  end.

(** The reply to the [n]-th call when the request is a [PutItem]. *)
Definition put_reply `{Remote} (s : Server) (q : Query) (isRetry : bool) (n : nat)
  : QResult :=
  queryServer_reply n s (target "PutItem") q isRetry.

(** ** The throttling tier of [rawQueryServer] as the specification words it *)

(** An exchange answered by a response other than 200 whose error code is
    [ProvisionedThroughputExceededException]. *)
Definition throttled `{JsonReader} (x : Exchange) : bool :=
  match x with
  | Responded resp body =>
      negb (resp_StatusCode resp =? 200)
      && String.eqb (Code (buildError resp body)) ProvisionedThroughputExceeded
  | _ => false
  end.

(** What a call returns for an exchange that it does not retry. *)
Definition outcome `{JsonReader} (x : Exchange) : QResult :=
  match x with
  | DoFailed err => (EmptyString, Some err)
  | ReadFailed err => (EmptyString, Some err)
  | Responded resp body =>
      if resp_StatusCode resp =? 200 then (body, None)
      else (EmptyString, Some (ErrDdb (buildError resp body)))
  end.

(** The delays of [n] successive retries after [retryCount] of them:
    [retryCount + 1] seconds, then one second more each time. *)
Fixpoint linear_sleeps (retryCount : Z) (n : nat) : list Z :=
  match n with
  | O => []
  | S n' => (retryCount + 1) * time.Second :: linear_sleeps (retryCount + 1) n'
  end.

(** The largest number of seconds that a [time.Duration] holds. *)
Definition max_seconds : Z := 9223372036.

(** A string without ['#']. *)
Fixpoint no_hash (s : string) : bool :=
  match s with
  | EmptyString => true
  | String c s' => negb (Ascii.eqb c "#"%char) && no_hash s'
  end.

(** The sum of a list of durations. *)
Definition total (durations : list Z) : Z := foldr Z.add 0 durations.

(** ** Scenarios *)

(** A request builder that records the clauses it is given. *)
Definition recording_Builder : Builder := {|
  Query := list string;
  Table := Server;
  Key := string;
  ItemActions := list string;
  Table_Server := fun t => t;
  Table_Key_Clone := fun _ hashKey rangeKey =>
    [mkAttribute TYPE_STRING "hash" hashKey None;
     mkAttribute TYPE_STRING "range" rangeKey None];
  NewQuery := fun _ => ["TableName"];
  NewEmptyQuery := [];
  AddKey := fun q _ key => q ++ ["Key"; key];
  ConsistentRead := fun q _ => q ++ ["ConsistentRead"];
  AddItem := fun q attributes => q ++ "Item" :: (Name <$> attributes);
  AddExpected := fun q expected => q ++ "Expected" :: (Name <$> expected);
  AddUpdates := fun q attributes action =>
    q ++ "AttributeUpdates" :: action :: (Name <$> attributes);
  AddWriteRequestItems := fun q actions => q ++ "RequestItems" :: actions;
  Query_String := fun q => String.concat "," q
|}.

(** A server whose successive replies to [queryServer] are scripted; past
    the script it answers with a transport error. *)
Definition scripted_Remote (replies : list QResult) : @Remote recording_Builder := {|
  queryServer_reply := fun n _ _ _ _ =>
    nth n replies (EmptyString, Some (ErrExt "connection refused"))
|}.

(** A transport whose successive exchanges are scripted. *)
Definition scripted_Transport (exchanges : list Exchange) : Transport := {|
  http_NewRequest_error := fun _ => None;
  http_Do := fun n _ _ _ => nth n exchanges (DoFailed (ErrExt "connection refused"))
|}.

(** A reader that knows the documents of a table of bodies and rejects
    every other body. *)
Definition table_JsonReader (docs : list (string * json)) : JsonReader := {|
  NewJson := fun body =>
    match List.find (fun d => String.eqb (fst d) body) docs with
    | Some d => inr (snd d)
    | None => inl (ErrExt "invalid character looking for beginning of value")
    end
|}.

Definition test_server : Server := mkServer "" "https://dynamodb.test".

Definition internal_error : Error :=
  mkError 500 "500 Internal Server Error" "InternalServerError" "try again".

Definition validation_error : Error :=
  mkError 400 "400 Bad Request" "ValidationException" "bad request".

(** One attribute, enough for [putItem] to send its request. *)
Definition one_attribute : list Attribute := [mkAttribute "S" "name" "bob" None].

(** The body of a throttling response, as the reader decodes it. *)
Definition throttling_doc : json :=
  JObject {["__type" :=
              JString "com.amazonaws.dynamodb.v20120810#ProvisionedThroughputExceededException";
            "message" := JString "The level of configured provisioned throughput was exceeded"]}.

Definition throttling_exchange : Exchange :=
  Responded (mkResponse 400 "400 Bad Request") "throttled".

(** A document without "Item", a document whose "Item" is empty, and the
    reader that knows them by the bodies [absent] and [present]. *)
Definition item_reader : JsonReader :=
  table_JsonReader [("absent", JObject ∅);
                    ("present", JObject {["Item" := JObject ∅]})].

(** A batch response that leaves one item of table [T] unprocessed, and
    one that leaves none. *)
Definition unprocessed_T : gmap string json :=
  {["T" := JArray [JObject {["PutRequest" :=
                      JObject {["Item" :=
                        JObject {["id" := JObject {["S" := JString "1"]}]}]}]}]]}.

Definition batch_reader : JsonReader :=
  table_JsonReader [("partial", JObject {["UnprocessedItems" := JObject unprocessed_T]});
                    ("complete", JObject {["UnprocessedItems" := JObject ∅]})].

Definition test_batch : @BatchWriteItem recording_Builder :=
  mkBatchWriteItem recording_Builder test_server ["T"].

(** A reader of decimal integers that fit 64 bits, for the scenarios. *)
Fixpoint digits_value (s : string) (acc : Z) : option Z :=
  match s with
  | EmptyString => Some acc
  | String c s' =>
      let d := Z.of_nat (nat_of_ascii c) - 48 in
      if (0 <=? d) && (d <=? 9) then digits_value s' (10 * acc + d) else None
  end.

Definition decimal_Int64 (s : string) : error + Z :=
  let parsed :=
    match s with
    | EmptyString => None
    | String c s' =>
        if Ascii.eqb c "-"%char
        then match s' with
             | EmptyString => None
             | _ => Z.opp <$> digits_value s' 0
             end
        else digits_value s 0
    end in
  match parsed with
  | Some v =>
      if (- 2 ^ 63 <=? v) && (v <? 2 ^ 63) then inr v
      else inl (ErrExt "value out of range")
  | None => inl (ErrExt "invalid syntax")
  end.

Definition decimal_NumberReader : NumberReader := {| Number_Int64 := decimal_Int64 |}.

(** The rest of the recording builder; a key is read from the string
    under "hash". *)
Definition recording_QueryBuilder : @QueryBuilder recording_Builder := {|
  AttributeComparison := string;
  KeysByTable := list string;
  AddKeyConditions := fun (q : @Query recording_Builder) comparisons =>
    q ++ "KeyConditions" :: comparisons;
  AddIndex := fun (q : @Query recording_Builder) indexName => q ++ ["IndexName"; indexName];
  AddLimit := fun (q : @Query recording_Builder) _ => q ++ ["Limit"];
  AddSelect := fun (q : @Query recording_Builder) mode => q ++ ["Select"; mode];
  AddGetRequestItems := fun (q : @Query recording_Builder) keys => q ++ "RequestItems" :: keys;
  parseKey := fun _ lastKeyMap =>
    Some (simplejson.MustString
            (simplejson.Get (simplejson.Get (JObject lastKeyMap) "hash") "S"))
|}.

(** Two items on the wire and their decoded forms. *)
Definition wire_bob : gmap string json := {["name" := JObject {["S" := JString "bob"]}]}.
Definition wire_eve : gmap string json := {["name" := JObject {["S" := JString "eve"]}]}.
Definition item_bob : gmap string Attribute := {["name" := mkAttribute "S" "name" "bob" None]}.
Definition item_eve : gmap string Attribute := {["name" := mkAttribute "S" "name" "eve" None]}.

(** The documents of the scenarios, by body. *)
Definition demo_docs : list (string * json) :=
  [("{}", JObject ∅);
   ("bob", JObject {["Item" := JObject wire_bob]});
   ("null item", JObject {["Item" := JNull]});
   ("batch", JObject {["Responses" :=
                         JObject {["T" := JArray [JObject wire_bob; JObject wire_eve]]}]});
   ("bad batch", JObject {["Responses" := JObject {["T" := JString "oops"]}]});
   ("page", JObject (<["Count" := JNumber "2"]>
                     (<["Items" := JArray [JObject wire_bob; JObject wire_eve]]>
                      {["LastEvaluatedKey" :=
                          JObject {["hash" := JObject {["S" := JString "eve"]}]}]})));
   ("short page", JObject (<["Count" := JNumber "3"]>
                           {["Items" := JArray [JObject wire_bob; JObject wire_eve]]}));
   ("negative", JObject {["Count" := JNumber "-1"]});
   ("coral", JObject (<["__type" := JString "com.amazon.coral.validate#ValidationException"]>
                      {["message" := JString "bad request"]}));
   ("throttling", JObject {["__type" :=
                              JString "com.amazonaws.dynamodb.v20120810#ThrottlingException"]});
   ("throttled", throttling_doc)].

Definition demo_reader : JsonReader := table_JsonReader demo_docs.

Definition test_batch_get : @BatchGetItem recording_Builder recording_QueryBuilder :=
  mkBatchGetItem recording_Builder recording_QueryBuilder test_server ["T"].

Definition ok_200 (body : string) : Exchange := Responded (mkResponse 200 "200 OK") body.

(** * Properties *)

(** ** The primitives on small inputs *)

Example Index_first_hash : strings.Index "a#b#c" "#" = 1.
Proof. reflexivity. Qed.

Example Index_no_hash : strings.Index "abc" "#" = -1.
Proof. reflexivity. Qed.

Example slice_from_2 : strings.slice_from "a#b#c" 2 = "b#c".
Proof. reflexivity. Qed.

Example code_of_type_last : code_of_type "a#b#c" = "c".
Proof. reflexivity. Qed.

Example wrap64_overflow : GoInt.wrap64 (2 ^ 63) = - 2 ^ 63.
Proof. reflexivity. Qed.

Example putItem_delay_0 : putItem_delay 0 = 50 * time.Millisecond.
Proof. reflexivity. Qed.

Example putItem_delay_3 : putItem_delay 3 = 400 * time.Millisecond.
Proof. reflexivity. Qed.

(** [S] is probed before [N]: an object with both decodes as a string. *)
Example entry_string_before_number :
  parseAttributes_entry "k" (JObject (<["N" := JString "1"]> {["S" := JString "one"]}))
  = Some (mkAttribute "S" "k" "one" None).
Proof. reflexivity. Qed.

(** A tag with a payload of the wrong type is passed over. *)
Example entry_wrong_payload :
  parseAttributes_entry "k" (JObject (<["S" := JArray []]> {["NS" := JArray [JString "1"; JNumber "2"]]}))
  = Some (mkAttribute "NS" "k" "" (Some ["1"; ""])).
Proof. reflexivity. Qed.

(** ** The attribute codec *)

Section Codec.

Lemma lookup_parseAttributes (s : gmap string json) (key : string) :
  parseAttributes s !! key = s !! key ≫= parseAttributes_entry key.
Proof.
  unfold parseAttributes. revert key.
  apply (map_fold_weak_ind (fun results s =>
           forall key, results !! key = s !! key ≫= parseAttributes_entry key)).
  - intros key. now rewrite !lookup_empty.
  - intros i x m results Hfresh IH key.
    destruct (decide (key = i)) as [->|Hne].
    + rewrite lookup_insert_eq. cbn.
      destruct (parseAttributes_entry i x) as [a|].
      * now rewrite lookup_insert_eq.
      * now rewrite IH, Hfresh.
    + rewrite (lookup_insert_ne m) by congruence.
      destruct (parseAttributes_entry i x) as [a|]; [|apply IH].
      rewrite lookup_insert_ne by congruence. apply IH.
Qed.

Lemma parseAttributes_entry_priority (key : string) (v : gmap string json) :
  parseAttributes_entry key (JObject v) = first_decoding key v tag_priority.
Proof.
  unfold parseAttributes_entry, tag_priority, first_decoding, decode_tag.
  cbn [isSetType].
  repeat match goal with
         | |- context [assert_string ?x] => destruct (assert_string x); cbn; try reflexivity
         | |- context [assert_slice ?x] => destruct (assert_slice x); cbn; try reflexivity
         end.
Qed.

Lemma unrecognized_dropped (key : string) (value : json) :
  unrecognized value = true -> parseAttributes_entry key value = None.
Proof.
  destruct value as [| | | | |v]; try reflexivity.
  cbn [unrecognized tag_priority forallb].
  rewrite !andb_true_iff, !bool_decide_eq_true.
  intros (HS & HN & HB & HSS & HNS & HBS & _).
  unfold parseAttributes_entry.
  now rewrite HS, HN, HB, HSS, HNS, HBS.
Qed.


Lemma fill_arry_strings (members : list string) :
  fill_arry (JString <$> members) = members.
Proof.
  unfold fill_arry. induction members as [|m members IH]; [reflexivity|].
  cbn. f_equal. exact IH.
Qed.

Lemma well_formed_decodes (key : string) (v : gmap string json) :
  well_formed (JObject v) = true ->
  exists a, parseAttributes_entry key (JObject v) = Some a
            /\ Name a = key
            /\ List.find (type_correct v) tag_priority = Some (Type_ a)
            /\ decode_tag key v (Type_ a) = Some a.
Proof.
  unfold well_formed, parseAttributes_entry, tag_priority, type_correct.
  cbn [existsb List.find isSetType String.eqb Ascii.eqb Bool.eqb orb
       TYPE_STRING TYPE_NUMBER TYPE_BINARY
       TYPE_STRING_SET TYPE_NUMBER_SET TYPE_BINARY_SET].
  intros Hwf.
  repeat match goal with
         | |- context [assert_string ?x] =>
             destruct (assert_string x) eqn:?
         | |- context [assert_slice ?x] =>
             destruct (assert_slice x) eqn:?
         end;
    try (eexists; split; [reflexivity|]; split; [reflexivity|];
         unfold decode_tag; cbn [Type_ isSetType String.eqb Ascii.eqb Bool.eqb orb];
         repeat match goal with H : _ = Some _ |- _ => rewrite H end);
    repeat (rewrite bool_decide_eq_true_2 by eauto);
    repeat (rewrite bool_decide_eq_false_2 by (intros []; discriminate));
    try (split; reflexivity).
  exfalso. revert Hwf.
  repeat (rewrite bool_decide_eq_false_2 by (intros []; discriminate)).
  discriminate.
Qed.

(** C7.  Decoding inspects a wire object against the six tags in the order
    String, Number, Binary, StringSet, NumberSet, BinarySet and keeps the
    first tag that is type-correct; an item made of one well-formed field
    and one field with no recognized tag decodes to exactly the well-formed
    field, the other one being dropped.  [parseAttributes] returns a map
    and no error: it cannot fail. *)
Theorem parseAttributes_first_tag_and_drop
    (k1 k2 : string) (v1 : gmap string json) (w2 : json) :
  k1 <> k2 ->
  well_formed (JObject v1) = true ->
  unrecognized w2 = true ->
  (forall key v, parseAttributes_entry key (JObject v)
                 = first_decoding key v tag_priority)
  /\ exists a,
       List.find (type_correct v1) tag_priority = Some (Type_ a)
       /\ decode_tag k1 v1 (Type_ a) = Some a
       /\ Name a = k1
       /\ parseAttributes (<[k1 := JObject v1]> {[k2 := w2]}) = {[k1 := a]}.
Proof.
  intros Hne Hwf Hun. split; [apply parseAttributes_entry_priority|].
  destruct (well_formed_decodes k1 v1 Hwf) as (a & Hdec & Hname & Hfind & Htag).
  exists a. repeat split; [exact Hfind | exact Htag | exact Hname |].
  - apply map_eq. intros key. rewrite lookup_parseAttributes.
    destruct (decide (key = k1)) as [->|Hk1].
    + rewrite lookup_insert_eq, lookup_singleton_eq. exact Hdec.
    + rewrite lookup_insert_ne, (lookup_singleton_ne k1) by congruence.
      destruct (decide (key = k2)) as [->|Hk2].
      * rewrite lookup_singleton_eq. cbn. now apply unrecognized_dropped.
      * now rewrite lookup_singleton_ne by congruence.
Qed.

(** The item [{name: {S: bob}, flag: {BOOL: yes}}] decodes to the single
    attribute [name]. *)
Lemma parseAttributes_first_tag_and_drop_witness :
  parseAttributes (<["name" := JObject {["S" := JString "bob"]}]>
                     {["flag" := JObject {["BOOL" := JString "yes"]}]})
  = {["name" := mkAttribute "S" "name" "bob" None]}.
Proof.
  destruct (parseAttributes_first_tag_and_drop
              "name" "flag" {["S" := JString "bob"]}
              (JObject {["BOOL" := JString "yes"]})) as (_ & a & Hfind & Hdec & _ & Hres);
    [discriminate | reflexivity | reflexivity |].
  assert (Hty : Some "S" = Some (Type_ a)) by (rewrite <- Hfind; reflexivity).
  injection Hty as Hty. rewrite <- Hty in Hdec.
  vm_compute in Hdec. injection Hdec as <-. exact Hres.
Defined.

(** C9.  Decoding the wire form of a supported attribute gives the
    attribute back, for a scalar of each of the three types and for a set of
    each of the three types with any members. *)
Theorem Decode_Encode (a : Attribute) :
  supported a = true ->
  parseAttributes_entry (Name a) (Encode a) = Some a
  /\ parseAttributes {[Name a := Encode a]} = {[Name a := a]}.
Proof.
  intros Hsup.
  assert (Hentry : parseAttributes_entry (Name a) (Encode a) = Some a).
  { destruct a as [ty name val members]. revert Hsup.
    unfold supported, Encode, parseAttributes_entry. cbn [Type_ Name Value SetValues].
    destruct (isSetType ty) eqn:Hset.
    - rewrite andb_true_iff, bool_decide_eq_true, String.eqb_eq.
      intros [-> [l ->]].
      unfold isSetType in Hset. rewrite !orb_true_iff, !String.eqb_eq in Hset.
      destruct Hset as [[-> | ->] | ->];
        repeat first [ rewrite lookup_singleton_eq
                     | rewrite lookup_singleton_ne by discriminate ];
        cbn; now rewrite fill_arry_strings.
    - rewrite andb_true_iff, bool_decide_eq_true, !orb_true_iff, !String.eqb_eq.
      intros [[[-> | ->] | ->] ->];
        repeat first [ rewrite lookup_singleton_eq
                     | rewrite lookup_singleton_ne by discriminate ];
        reflexivity. }
  split; [exact Hentry|].
  apply map_eq. intros key. rewrite lookup_parseAttributes.
  destruct (decide (key = Name a)) as [->|Hk].
  - rewrite !lookup_singleton_eq. exact Hentry.
  - now rewrite !lookup_singleton_ne by congruence.
Qed.

(** A string set with three members and a number survive the round trip. *)
Lemma Decode_Encode_witness :
  let tags := mkAttribute "SS" "tags" "" (Some ["a"; "b"; "c"]) in
  let age := mkAttribute "N" "age" "42" None in
  parseAttributes_entry "tags" (Encode tags) = Some tags
  /\ parseAttributes_entry "age" (Encode age) = Some age.
Proof.
  split.
  - apply (Decode_Encode (mkAttribute "SS" "tags" "" (Some ["a"; "b"; "c"]))).
    reflexivity.
  - apply (Decode_Encode (mkAttribute "N" "age" "42" None)). reflexivity.
Defined.

End Codec.

(** ** The operations on items *)

Section ItemOps.

Context `{reader : JsonReader} `{remote : Remote}.

(** C10.  With an empty attribute list, [putItem], [modifyAttributes] and
    every operation built on them return [false] with the error "At least
    one attribute is required." and make no call to the server. *)
Theorem empty_attributes_rejected (t : Table) (hashKey rangeKey : string)
    (key : Key) (expected : option (list Attribute)) (action : string)
    (isRetry : bool) (w : Calls) :
  let refused :=
    ((false, Some (ErrNew "At least one attribute is required.")), w) in
  putItem t hashKey rangeKey [] expected isRetry w = refused
  /\ PutItem t hashKey rangeKey [] isRetry w = refused
  /\ ConditionalPutItem t hashKey rangeKey [] expected isRetry w = refused
  /\ modifyAttributes t key [] expected action isRetry w = refused
  /\ AddAttributes t key [] isRetry w = refused
  /\ UpdateAttributes t key [] isRetry w = refused
  /\ DeleteAttributes t key [] isRetry w = refused
  /\ ConditionalAddAttributes t key [] expected isRetry w = refused
  /\ ConditionalUpdateAttributes t key [] expected isRetry w = refused
  /\ ConditionalDeleteAttributes t key [] expected isRetry w = refused.
Proof. cbv zeta. repeat split. Qed.

(** C5.  When the response to [getItem] is a JSON document without the
    field "Item", the result is the error [ErrNotFound], which is none of
    the generic errors; when the document has ["Item": {}], the result is an
    empty map that is not [nil], with a [nil] error. *)
Theorem getItem_not_found_distinction (t : Table) (key : Key)
    (consistentRead isRetry : bool) (w : Calls) (body : string) (doc : json) :
  (forall q, queryServer_reply (calls w) (Table_Server t) (target "GetItem") q isRetry
             = (body, None)) ->
  NewJson body = inr doc ->
  let w' := mkCalls (S (calls w)) (waited w) in
  ((forall fields, doc = JObject fields -> fields !! "Item" = None) ->
   getItem t key consistentRead isRetry w = ((None, Some ErrNotFound), w'))
  /\ ((exists fields, doc = JObject fields /\ fields !! "Item" = Some (JObject ∅)) ->
      getItem t key consistentRead isRetry w = ((Some ∅, None), w'))
  /\ (forall msg e, ErrNotFound <> ErrNew msg /\ ErrNotFound <> ErrExt msg
                    /\ ErrNotFound <> ErrDdb e).
Proof.
  intros Hreply Hjson w'. split; [|split].
  - intros Hlacks. unfold getItem, mbind, M_bind, queryServer3.
    rewrite Hreply. cbn. rewrite Hjson.
    destruct doc as [| | | | |fields]; try reflexivity.
    unfold simplejson.CheckGet. cbn. now rewrite (Hlacks fields eq_refl).
  - intros (fields & -> & Hitem). unfold getItem, mbind, M_bind, queryServer3.
    rewrite Hreply. cbn. rewrite Hjson.
    unfold simplejson.CheckGet. cbn. rewrite Hitem. cbn.
    unfold parseAttributes. now rewrite map_fold_empty.
  - intros msg e. repeat split; discriminate.
Qed.

(** C8.  When the response to [BatchWriteItem.Execute] is a document whose
    "UnprocessedItems" is a mapping: an empty mapping gives [(nil, nil)], a
    mapping that is not empty is returned as it is, together with the error
    "One or more unprocessed items.". *)
Theorem BatchWriteItem_Execute_unprocessed (batchWriteItem : BatchWriteItem)
    (isRetry : bool) (w : Calls) (body : string) (fields unprocessed : gmap string json) :
  (forall q, queryServer_reply (calls w) (bw_Server batchWriteItem)
                               "DynamoDB_20120810.BatchWriteItem" q isRetry
             = (body, None)) ->
  NewJson body = inr (JObject fields) ->
  fields !! "UnprocessedItems" = Some (JObject unprocessed) ->
  let w' := mkCalls (S (calls w)) (waited w) in
  (unprocessed = ∅ ->
   BatchWriteItem_Execute batchWriteItem isRetry w = ((None, None), w'))
  /\ (unprocessed <> ∅ ->
      BatchWriteItem_Execute batchWriteItem isRetry w
      = ((Some unprocessed, Some (ErrNew "One or more unprocessed items.")), w')).
Proof.
  intros Hreply Hjson Hfield w'.
  unfold BatchWriteItem_Execute, mbind, M_bind, queryServer3.
  rewrite Hreply. cbn. rewrite Hjson.
  unfold simplejson.Get. cbn. rewrite Hfield. cbn.
  split.
  - intros ->. now rewrite map_size_empty.
  - intros Hne. apply map_size_non_empty_iff in Hne.
    destruct (size unprocessed) eqn:Hsize; [contradiction|reflexivity].
Qed.


(** *** The retry loop of [putItem] *)


Lemma putItem_loop_step (s : Server) (q : Query) (isRetry : bool)
    (currentRetry : Z) (w : Calls) :
  putItem_loop s q isRetry currentRetry w =
  let res := put_reply s q isRetry (calls w) in
  let w1 := mkCalls (S (calls w)) (waited w) in
  if Z_le_dec maxNumberOfRetry currentRetry then (res, w1)
  else if putItem_retry (snd res) then
         putItem_loop s q isRetry (GoInt.addu64 currentRetry 1)
                      (mkCalls (S (calls w)) (waited w ++ [putItem_delay currentRetry]))
       else (res, w1).
Proof.
  match goal with |- _ = ?R => remember R as rhs eqn:Hrhs end.
  rewrite putItem_loop_equation_1. unfold queryServer3. cbn.
  subst rhs. unfold put_reply. cbv zeta.
  destruct (Z_le_dec maxNumberOfRetry currentRetry); cbn; [reflexivity|].
  destruct (putItem_retry _); reflexivity.
Qed.


Lemma putItem_retry_iff (r : QResult) :
  putItem_retry (snd r) = true <-> retryable_reply r.
Proof.
  unfold retryable_reply, retryable_error. destruct r as [body [[e| |msg|msg]|]]; cbn.
  - rewrite !orb_true_iff, Z.eqb_eq, !String.eqb_eq. split.
    + intros Hr. exists e. split; [reflexivity|tauto].
    + intros (e' & [= <-] & Hr). tauto.
  - split; [discriminate|]. intros (e & [=] & _).
  - split; [discriminate|]. intros (e & [=] & _).
  - split; [discriminate|]. intros (e & [=] & _).
  - split; [discriminate|]. intros (e & [=] & _).
Qed.

Lemma addu64_small (currentRetry : Z) :
  0 <= currentRetry < maxNumberOfRetry -> GoInt.addu64 currentRetry 1 = currentRetry + 1.
Proof.
  unfold GoInt.addu64, GoInt.wrapu64, maxNumberOfRetry. intros Hcr.
  apply Z.mod_small. lia.
Qed.

(** [n] retryable replies, then a reply that ends the loop: the budget is
    used up, or the reply is not retryable. *)
Lemma putItem_loop_run (s : Server) (q : Query) (isRetry : bool) (n : nat) :
  forall (currentRetry : Z) (w : Calls),
  0 <= currentRetry ->
  currentRetry + Z.of_nat n <= maxNumberOfRetry ->
  (forall i, (i < n)%nat -> retryable_reply (put_reply s q isRetry (calls w + i))) ->
  (currentRetry + Z.of_nat n = maxNumberOfRetry
   \/ ~ retryable_reply (put_reply s q isRetry (calls w + n))) ->
  putItem_loop s q isRetry currentRetry w
  = (put_reply s q isRetry (calls w + n),
     mkCalls (S (calls w + n)) (waited w ++ delays_from currentRetry n)).
Proof.
  induction n as [|n IH]; intros currentRetry w Hpos Hbudget Hretry Hlast.
  - rewrite putItem_loop_step. cbv zeta. rewrite Nat.add_0_r in *.
    cbn [delays_from]. rewrite app_nil_r.
    destruct (Z_le_dec maxNumberOfRetry currentRetry) as [Hle|Hlt]; [reflexivity|].
    destruct Hlast as [Heq|Hnot]; [lia|].
    destruct (putItem_retry _) eqn:Hr; [|reflexivity].
    apply putItem_retry_iff in Hr. contradiction.
  - rewrite putItem_loop_step. cbv zeta.
    destruct (Z_le_dec maxNumberOfRetry currentRetry) as [Hle|Hlt]; [lia|].
    assert (Hr : putItem_retry (snd (put_reply s q isRetry (calls w))) = true).
    { apply putItem_retry_iff. specialize (Hretry 0%nat ltac:(lia)).
      now rewrite Nat.add_0_r in Hretry. }
    rewrite Hr, addu64_small by lia.
    rewrite IH; cbn [calls waited].
    + rewrite <- !Nat.add_succ_comm, <- app_assoc. reflexivity.
    + lia.
    + lia.
    + intros i Hi. rewrite Nat.add_succ_comm. apply Hretry. lia.
    + rewrite Nat.add_succ_comm. destruct Hlast; [left; lia | now right].
Qed.

(** Any predicate on indices holds on a first stretch that ends within [m]
    steps or at the first index where it fails. *)
Lemma first_stop (P : nat -> Prop) (m : nat) :
  (forall i, P i \/ ~ P i) ->
  exists n, (n <= m)%nat /\ (forall i, (i < n)%nat -> P i) /\ (n = m \/ ~ P n).
Proof.
  intros Hdec. induction m as [|m (n & Hle & Hall & Hend)].
  - exists 0%nat. repeat split; [lia | intros i Hi; lia | now left].
  - destruct Hend as [->|Hnot].
    + destruct (Hdec m) as [Hm|Hm].
      * exists (S m). repeat split; [lia | | now left].
        intros i Hi. destruct (decide (i = m)) as [->|]; [exact Hm | apply Hall; lia].
      * exists m. repeat split; [lia | exact Hall | now right].
    + exists n. repeat split; [lia | exact Hall | now right].
Qed.

Lemma retryable_reply_dec (r : QResult) : retryable_reply r \/ ~ retryable_reply r.
Proof.
  destruct (putItem_retry (snd r)) eqn:Hr.
  - left. now apply putItem_retry_iff.
  - right. intros Hrep. apply putItem_retry_iff in Hrep. congruence.
Qed.

(** The loop always ends, after at most [maxNumberOfRetry] retries. *)
Lemma putItem_loop_stops (s : Server) (q : Query) (isRetry : bool) (w : Calls) :
  exists n, (n <= 4)%nat
    /\ (forall i, (i < n)%nat -> retryable_reply (put_reply s q isRetry (calls w + i)))
    /\ (n = 4%nat \/ ~ retryable_reply (put_reply s q isRetry (calls w + n)))
    /\ putItem_loop s q isRetry 0 w
       = (put_reply s q isRetry (calls w + n),
          mkCalls (S (calls w + n)) (waited w ++ delays_from 0 n)).
Proof.
  destruct (first_stop (fun i => retryable_reply (put_reply s q isRetry (calls w + i))) 4)
    as (n & Hle & Hall & Hend); [intros i; apply retryable_reply_dec|].
  exists n. repeat split; [exact Hle | exact Hall | exact Hend |].
  apply putItem_loop_run; unfold maxNumberOfRetry; [lia | lia | exact Hall |].
  destruct Hend as [->|Hnot]; [now left | now right].
Qed.

(** [putItem] with attributes: the loop, then the reading of its result. *)
Lemma putItem_nonempty (t : Table) (hashKey rangeKey : string)
    (attributes : list Attribute) (expected : option (list Attribute))
    (isRetry : bool) (w : Calls) :
  attributes <> [] ->
  putItem t hashKey rangeKey attributes expected isRetry w =
  let (res, w') := putItem_loop (Table_Server t)
                     (putItem_query t hashKey rangeKey attributes expected) isRetry 0 w in
  match snd res with
  | Some err => ((false, Some err), w')
  | None =>
      match NewJson (fst res) with
      | inl err => ((false, Some err), w')
      | inr _ => ((true, None), w')
      end
  end.
Proof.
  intros Hne. unfold putItem, putItem_query, mbind, M_bind.
  destruct attributes as [|a attributes]; [contradiction|]. cbn [length Nat.eqb].
  destruct expected;
    (destruct (putItem_loop _ _ _ _ _) as [[jsonResponse [err|]] w']; cbn;
     [reflexivity | destruct (NewJson jsonResponse); reflexivity]).
Qed.


Lemma delays_from_backoff (n : nat) :
  (n <= 4)%nat -> delays_from 0 n = backoff <$> seq 0 n.
Proof.
  intros Hn. do 5 (destruct n as [|n]; [reflexivity|]). lia.
Qed.

(** C1.  When each of the five attempts of [putItem] returns a retryable
    service error, exactly five calls are made and the last error is
    returned with [false]; when the attempts before the [k]-th return
    retryable errors and the [k]-th succeeds, no other call is made and the
    result is [(true, nil)]. *)
Theorem putItem_retry_bound (t : Table) (hashKey rangeKey : string)
    (attributes : list Attribute) (expected : option (list Attribute))
    (isRetry : bool) (w : Calls) :
  attributes <> [] ->
  let reply := put_reply (Table_Server t)
                 (putItem_query t hashKey rangeKey attributes expected) isRetry in
  let run := putItem t hashKey rangeKey attributes expected isRetry w in
  ((forall i, (i < 5)%nat -> retryable_reply (reply (calls w + i)%nat)) ->
   exists e, snd (reply (calls w + 4)%nat) = Some (ErrDdb e)
             /\ fst run = (false, Some (ErrDdb e))
             /\ calls (snd run) = (calls w + 5)%nat)
  /\ (forall (k : nat) (body : string) (doc : json),
        (k < 5)%nat ->
        (forall i, (i < k)%nat -> retryable_reply (reply (calls w + i)%nat)) ->
        reply (calls w + k)%nat = (body, None) ->
        NewJson body = inr doc ->
        fst run = (true, None) /\ calls (snd run) = (calls w + S k)%nat).
Proof.
  intros Hne reply run. subst run. rewrite putItem_nonempty by exact Hne. split.
  - intros Hall.
    destruct (Hall 4%nat ltac:(lia)) as (e & Hlast & _). exists e.
    split; [exact Hlast|].
    rewrite (putItem_loop_run _ _ _ 4); unfold maxNumberOfRetry;
      [| lia | lia | intros i Hi; apply Hall; lia | now left].
    fold reply. rewrite Hlast. cbn. split; [reflexivity | lia].
  - intros k body doc Hk Hbefore Hok Hjson.
    rewrite (putItem_loop_run _ _ _ k); unfold maxNumberOfRetry;
      [| lia | lia | exact Hbefore |].
    + fold reply. rewrite Hok. cbn. rewrite Hjson. cbn. split; [reflexivity | lia].
    + right. fold reply. rewrite Hok. intros (e & [=] & _).
Qed.

(** C3.  The durations that one call of [putItem] waits are, in order, the
    delays [2^k * 50ms] for k = 0, 1, ... up to the number of retries made,
    which is at most four: 50ms, 100ms, 200ms, 400ms.  They depend on
    nothing else. *)
Theorem putItem_backoff_schedule (t : Table) (hashKey rangeKey : string)
    (attributes : list Attribute) (expected : option (list Attribute))
    (isRetry : bool) (w : Calls) :
  let run := putItem t hashKey rangeKey attributes expected isRetry w in
  (exists retries : nat,
     (retries <= 4)%nat
     /\ waited (snd run) = waited w ++ (backoff <$> seq 0 retries)
     /\ (attributes <> [] -> calls (snd run) = (calls w + S retries)%nat))
  /\ (forall k : Z, 0 <= k < 4 -> putItem_delay k = 2 ^ k * 50 * time.Millisecond)
  /\ backoff <$> seq 0 4
     = [50 * time.Millisecond; 100 * time.Millisecond;
        200 * time.Millisecond; 400 * time.Millisecond].
Proof.
  intros run. split; [|split].
  - subst run. destruct attributes as [|a rest].
    + exists 0%nat. cbn. rewrite app_nil_r.
      split; [lia | split; [reflexivity | congruence]].
    + rewrite putItem_nonempty by discriminate.
      destruct (putItem_loop_stops (Table_Server t)
                  (putItem_query t hashKey rangeKey (a :: rest) expected)
                  isRetry w) as (n & Hle & _ & _ & Hrun).
      exists n. rewrite Hrun, delays_from_backoff by exact Hle.
      destruct (put_reply _ _ _ _) as [body [err|]]; cbn;
        [|destruct (NewJson body); cbn];
        (split; [exact Hle | split; [reflexivity | intros _; lia]]).
  - intros k Hk. assert (k = 0 \/ k = 1 \/ k = 2 \/ k = 3) as [->|[->|[->| ->]]] by lia;
      reflexivity.
  - reflexivity.
Qed.

End ItemOps.

(** Five replies with HTTP status 500, and two of them before a success. *)
Lemma putItem_retry_bound_witness :
  let reader := table_JsonReader [("{}", JObject ∅)] in
  let failure := (EmptyString, Some (ErrDdb internal_error)) in
  let failing := scripted_Remote (replicate 5 failure) in
  let third := scripted_Remote [failure; failure; ("{}", None)] in
  let start := mkCalls 0 [] in
  (fst (@putItem reader _ failing test_server "h" "r" one_attribute None true start)
   = (false, Some (ErrDdb internal_error))
   /\ calls (snd (@putItem reader _ failing test_server "h" "r" one_attribute None true start))
      = 5%nat)
  /\ (fst (@putItem reader _ third test_server "h" "r" one_attribute None true start)
      = (true, None)
      /\ calls (snd (@putItem reader _ third test_server "h" "r" one_attribute None true start))
         = 3%nat).
Proof.
  intros reader failure failing third start. split.
  - destruct (@putItem_retry_bound reader _ failing test_server "h" "r"
                one_attribute None true start ltac:(discriminate))
      as [Hall _].
    destruct Hall as (e & Hlast & Hres & Hcalls).
    + intros i Hi. exists internal_error.
      do 5 (destruct i as [|i]; [split; [reflexivity | left; reflexivity]|]). lia.
    + injection Hlast as <-. split; [exact Hres | exact Hcalls].
  - destruct (@putItem_retry_bound reader _ third test_server "h" "r"
                one_attribute None true start ltac:(discriminate))
      as [_ Hok].
    apply (Hok 2%nat "{}" (JObject ∅)); [lia | | reflexivity | reflexivity].
    intros i Hi. exists internal_error.
    do 2 (destruct i as [|i]; [split; [reflexivity | left; reflexivity]|]). lia.
Defined.

(** C2, as the code has it.  The flag [retry] is set exactly for a service
    error with status 500 or with one of the two throttling codes.  A call
    of [putItem] goes on to another attempt exactly while fewer than four
    retries were made and the last reply is such an error; the first reply
    that is not (any other error, or a success) ends the call, and an error
    is returned with [false] without another attempt. *)
Theorem putItem_retry_policy `{reader : JsonReader} `{remote : Remote}
    (t : Table) (hashKey rangeKey : string)
    (attributes : list Attribute) (expected : option (list Attribute))
    (isRetry : bool) (w : Calls) :
  attributes <> [] ->
  let reply := put_reply (Table_Server t)
                 (putItem_query t hashKey rangeKey attributes expected) isRetry in
  let run := putItem t hashKey rangeKey attributes expected isRetry w in
  (forall r : QResult, putItem_retry (snd r) = true <-> retryable_reply r)
  /\ exists n : nat,
       (n <= 4)%nat
       /\ (forall i, (i < n)%nat -> retryable_reply (reply (calls w + i)%nat))
       /\ (n = 4%nat \/ ~ retryable_reply (reply (calls w + n)%nat))
       /\ calls (snd run) = (calls w + S n)%nat
       /\ (forall err, snd (reply (calls w + n)%nat) = Some err ->
                       fst run = (false, Some err)).
Proof.
  intros Hne reply run. split; [apply putItem_retry_iff|].
  subst run. rewrite putItem_nonempty by exact Hne.
  destruct (putItem_loop_stops (Table_Server t)
              (putItem_query t hashKey rangeKey attributes expected) isRetry w)
    as (n & Hle & Hall & Hend & Hrun).
  exists n. rewrite Hrun. fold reply.
  split; [exact Hle|]. split; [exact Hall|]. split; [exact Hend|].
  destruct (reply (calls w + n)%nat) as [body [err|]]; cbn.
  - split; [lia|]. now intros err' [= <-].
  - destruct (NewJson body); cbn; (split; [lia | discriminate]).
Qed.

(** A validation error on the first attempt, with a success scripted after
    it: the call makes one attempt. *)
Lemma putItem_retry_policy_witness :
  let reader := table_JsonReader [("{}", JObject ∅)] in
  let remote := scripted_Remote
                  [(EmptyString, Some (ErrDdb validation_error)); ("{}", None)] in
  let run := @putItem reader _ remote test_server "h" "r" one_attribute None true
                      (mkCalls 0 []) in
  calls (snd run) = 1%nat /\ fst run = (false, Some (ErrDdb validation_error)).
Proof.
  intros reader remote run.
  destruct (@putItem_retry_policy reader _ remote test_server "h" "r"
              one_attribute None true (mkCalls 0 []) ltac:(discriminate))
    as (_ & n & Hle & Hall & Hend & Hcalls & Herr).
  assert (n = 0%nat) as ->.
  { destruct n as [|n]; [reflexivity|]. exfalso.
    destruct (Hall 0%nat ltac:(lia)) as (e & [= <-] & [Hs | [Hc | Hc]]); discriminate. }
  split; [exact Hcalls | now apply Herr].
Defined.

(** C2, as the claim words it, fails: the first attempt returns an error
    that is not [nil], no retry has been made yet, and [putItem] returns
    that error after this one attempt. *)
Lemma putItem_does_not_retry_any_error :
  let reader := table_JsonReader [("{}", JObject ∅)] in
  let remote := scripted_Remote
                  [(EmptyString, Some (ErrDdb validation_error)); ("{}", None)] in
  let q := @putItem_query recording_Builder test_server "h" "r" one_attribute None in
  snd (@put_reply _ remote test_server q true 0) = Some (ErrDdb validation_error)
  /\ 0 < maxNumberOfRetry
  /\ @putItem reader _ remote test_server "h" "r" one_attribute None true (mkCalls 0 [])
     = ((false, Some (ErrDdb validation_error)), mkCalls 1 []).
Proof.
  cbv zeta. split; [reflexivity|]. split; [reflexivity|].
  rewrite putItem_nonempty by discriminate.
  rewrite (putItem_loop_run _ _ _ 0); cbn.
  - reflexivity.
  - lia.
  - unfold maxNumberOfRetry. lia.
  - intros i Hi. lia.
  - right. intros (e & [= <-] & [Hs | [Hc | Hc]]); discriminate.
Qed.

(** ** The transport: [rawQueryServer] *)

Section TransportProps.

Context `{reader : JsonReader} `{transport : Transport} `{builder : Builder}.

Lemma wrap64_small (x : Z) : - 2 ^ 63 <= x < 2 ^ 63 -> GoInt.wrap64 x = x.
Proof.
  intros Hx. unfold GoInt.wrap64. rewrite Z.mod_small; lia.
Qed.

Lemma seconds_fit (retryCount : Z) :
  0 <= retryCount < max_seconds ->
  GoInt.add64 retryCount 1 = retryCount + 1
  /\ GoInt.mul64 (retryCount + 1) time.Second = (retryCount + 1) * time.Second.
Proof.
  unfold max_seconds, GoInt.add64, GoInt.mul64. intros Hr.
  change time.Second with 1000000000.
  split; apply wrap64_small; lia.
Qed.

(** One turn of [rawQueryServer] on a throttled exchange, the caller
    having opted in. *)
Lemma rawQueryServer_throttled_step (fuel : nat) (s : Server) (target query : string)
    (retryCount : Z) (w : Net) :
  http_NewRequest_error (String.append (Region_DynamoDBEndpoint s) "/") = None ->
  throttled (http_Do (sent w) s target query) = true ->
  0 <= retryCount < max_seconds ->
  rawQueryServer (S fuel) s target query retryCount w
  = rawQueryServer fuel s target query (retryCount + 1)
      (mkNet (S (sent w)) (slept w ++ [(retryCount + 1) * time.Second])).
Proof.
  intros Hreq Hthr Hr. cbn [rawQueryServer]. rewrite Hreq.
  destruct (http_Do (sent w) s target query) as [e|e|resp body]; try discriminate.
  cbn [throttled] in Hthr. apply andb_true_iff in Hthr as [Hstatus Hcode].
  rewrite Hstatus, Hcode.
  destruct (seconds_fit retryCount Hr) as [Hadd Hmul].
  replace (0 <=? retryCount) with true by (symmetry; apply Z.leb_le; lia).
  cbv zeta. rewrite Hadd, Hmul. reflexivity.
Qed.

(** One turn of [rawQueryServer] on an exchange that is not throttled. *)
Lemma rawQueryServer_final_step (fuel : nat) (s : Server) (target query : string)
    (retryCount : Z) (w : Net) :
  http_NewRequest_error (String.append (Region_DynamoDBEndpoint s) "/") = None ->
  throttled (http_Do (sent w) s target query) = false ->
  rawQueryServer (S fuel) s target query retryCount w
  = Some (outcome (http_Do (sent w) s target query), mkNet (S (sent w)) (slept w)).
Proof.
  intros Hreq Hthr. cbn [rawQueryServer]. rewrite Hreq.
  destruct (http_Do (sent w) s target query) as [e|e|resp body]; try reflexivity.
  cbn [throttled outcome] in *.
  destruct (resp_StatusCode resp =? 200); cbn in *; [reflexivity|].
  now rewrite Hthr.
Qed.

(** One turn of [rawQueryServer] on a throttled exchange, the caller not
    having opted in. *)
Lemma rawQueryServer_no_retry_step (fuel : nat) (s : Server) (target query : string)
    (retryCount : Z) (w : Net) :
  http_NewRequest_error (String.append (Region_DynamoDBEndpoint s) "/") = None ->
  retryCount < 0 ->
  rawQueryServer (S fuel) s target query retryCount w
  = Some (outcome (http_Do (sent w) s target query), mkNet (S (sent w)) (slept w)).
Proof.
  intros Hreq Hr. cbn [rawQueryServer]. rewrite Hreq.
  destruct (http_Do (sent w) s target query) as [e|e|resp body]; try reflexivity.
  cbn [outcome].
  destruct (resp_StatusCode resp =? 200); cbn; [reflexivity|].
  replace (0 <=? retryCount) with false by (symmetry; apply Z.leb_gt; lia).
  now destruct (String.eqb _ _).
Qed.

(** [n] throttled exchanges in a row, the caller having opted in: the call
    goes on as a call with [n] retries more behind it. *)
Lemma rawQueryServer_throttled_run (s : Server) (target query : string) (n : nat) :
  forall (fuel : nat) (retryCount : Z) (w : Net),
  http_NewRequest_error (String.append (Region_DynamoDBEndpoint s) "/") = None ->
  0 <= retryCount ->
  retryCount + Z.of_nat n <= max_seconds ->
  (forall i, (i < n)%nat -> throttled (http_Do (sent w + i) s target query) = true) ->
  rawQueryServer (n + fuel) s target query retryCount w
  = rawQueryServer fuel s target query (retryCount + Z.of_nat n)
      (mkNet (sent w + n) (slept w ++ linear_sleeps retryCount n)).
Proof.
  induction n as [|n IH]; intros fuel retryCount w Hreq Hpos Hmax Hthr.
  - cbn [linear_sleeps Nat.add]. rewrite Z.add_0_r, Nat.add_0_r, app_nil_r.
    now destruct w.
  - cbn [Nat.add]. rewrite rawQueryServer_throttled_step; [| exact Hreq | | lia].
    + rewrite IH; cbn [sent slept]; [| exact Hreq | lia | lia |].
      * cbn [linear_sleeps]. rewrite <- app_assoc.
        replace (retryCount + Z.of_nat (S n)) with (retryCount + 1 + Z.of_nat n) by lia.
        replace (sent w + S n)%nat with (S (sent w) + n)%nat by lia.
        reflexivity.
      * intros i Hi. rewrite Nat.add_succ_comm. apply Hthr. lia.
    + specialize (Hthr 0%nat ltac:(lia)). now rewrite Nat.add_0_r in Hthr.
Qed.

(** [buildError] copies the status of the response it is given. *)
Lemma buildError_StatusCode (resp : Response) (body : string) :
  StatusCode (buildError resp body) = resp_StatusCode resp.
Proof. unfold buildError. now destruct (NewJson body). Qed.

(** A response with HTTP status 500 comes back from the transport as a
    retryable service error, whatever its body. *)
Lemma http_500_is_retryable (resp : Response) (body : string) :
  resp_StatusCode resp = 500 -> retryable_reply (outcome (Responded resp body)).
Proof.
  intros H500. unfold retryable_reply, retryable_error, outcome. rewrite H500. cbn.
  exists (buildError resp body). split; [reflexivity|].
  left. now rewrite buildError_StatusCode.
Qed.

(** C4.  On a response other than 200 whose code is
    [ProvisionedThroughputExceededException]: a caller that opted in
    ([retryCount >= 0]) sleeps one second more at each attempt and tries
    again, for any number [n] of such responses in a row; a caller that did
    not ([retryCount < 0], which is what [isRetry = false] gives) gets the
    error at once, after one request and no sleep. *)
Theorem rawQueryServer_throttling_tier (s : Server) (target query : string)
    (fuel : nat) (w : Net) :
  http_NewRequest_error (String.append (Region_DynamoDBEndpoint s) "/") = None ->
  (forall (n : nat) (retryCount : Z),
     0 <= retryCount ->
     retryCount + Z.of_nat n <= max_seconds ->
     (forall i, (i < n)%nat -> throttled (http_Do (sent w + i) s target query) = true) ->
     throttled (http_Do (sent w + n) s target query) = false ->
     rawQueryServer (S n + fuel) s target query retryCount w
     = Some (outcome (http_Do (sent w + n) s target query),
             mkNet (S (sent w + n)) (slept w ++ linear_sleeps retryCount n)))
  /\ (forall (retryCount : Z) (resp : Response) (body : string),
        retryCount < 0 ->
        http_Do (sent w) s target query = Responded resp body ->
        throttled (Responded resp body) = true ->
        rawQueryServer (S fuel) s target query retryCount w
        = Some ((EmptyString, Some (ErrDdb (buildError resp body))),
                mkNet (S (sent w)) (slept w)))
  /\ RawQueryTable_retryCount true = 0
  /\ RawQueryTable_retryCount false = -1
  /\ (forall (t : Table) (isRetry : bool),
        RawQueryTable_send fuel t query target isRetry w
        = rawQueryServer fuel (Table_Server t)
            (String.append "DynamoDB_20120810." target) query
            (if isRetry then 0 else -1) w).
Proof.
  intros Hreq. split; [|split; [|split; [|split]]].
  - intros n retryCount Hpos Hmax Hthr Hlast.
    replace (S n + fuel)%nat with (n + S fuel)%nat by lia.
    rewrite rawQueryServer_throttled_run by assumption.
    rewrite rawQueryServer_final_step by assumption. reflexivity.
  - intros retryCount resp body Hneg Hdo Hthr.
    rewrite rawQueryServer_no_retry_step by assumption.
    rewrite Hdo. cbn [outcome]. cbn [throttled] in Hthr.
    apply andb_true_iff in Hthr as [Hstatus _].
    apply negb_true_iff in Hstatus. now rewrite Hstatus.
  - reflexivity.
  - reflexivity.
  - intros t isRetry. unfold RawQueryTable_send, RawQueryTable_retryCount.
    now destruct isRetry.
Qed.

End TransportProps.

(** Two throttling responses and then a success: three requests, sleeps of
    one and two seconds; without opting in, the first error comes back. *)
Lemma rawQueryServer_throttling_tier_witness :
  let reader := table_JsonReader [("throttled", throttling_doc); ("{}", JObject ∅)] in
  let transport := scripted_Transport
                     [throttling_exchange; throttling_exchange;
                      Responded (mkResponse 200 "200 OK") "{}"] in
  @rawQueryServer reader transport 3 test_server "DynamoDB_20120810.Query" "q" 0
                  (mkNet 0 [])
  = Some (("{}", None), mkNet 3 [1 * time.Second; 2 * time.Second])
  /\ @rawQueryServer reader transport 1 test_server "DynamoDB_20120810.Query" "q" (-1)
                     (mkNet 0 [])
     = Some ((EmptyString,
              Some (ErrDdb (mkError 400 "400 Bad Request"
                              "ProvisionedThroughputExceededException"
                              "The level of configured provisioned throughput was exceeded"))),
             mkNet 1 []).
Proof.
  intros reader transport.
  destruct (@rawQueryServer_throttling_tier reader transport recording_Builder
              test_server "DynamoDB_20120810.Query" "q" 0 (mkNet 0 []) eq_refl)
    as (Hretry & Hnone & _).
  split.
  - apply (Hretry 2%nat 0); [lia | unfold max_seconds; lia | | reflexivity].
    intros i Hi. do 2 (destruct i as [|i]; [reflexivity|]). lia.
  - apply (Hnone (-1) (mkResponse 400 "400 Bad Request") "throttled");
      [lia | reflexivity | reflexivity].
Defined.

(** ** [buildError] *)

Section BuildError.

Context `{reader : JsonReader}.

(** The code that [buildError] gives to a body that is a JSON document. *)
Lemma buildError_code (r : Response) (body : string) (doc : json) :
  NewJson body = inr doc ->
  Code (buildError r body) =
  let codeStr := simplejson.MustString (simplejson.Get doc "__type") in
  let hashIndex := strings.Index codeStr "#" in
  if 0 <? hashIndex then strings.slice_from codeStr (Z.to_nat (hashIndex + 1))
  else codeStr.
Proof. intros Hdoc. unfold buildError. now rewrite Hdoc. Qed.

Lemma append_nil (s : string) : String.append EmptyString s = s.
Proof. reflexivity. Qed.

Lemma append_cons (c : ascii) (s s' : string) :
  String.append (String c s) s' = String c (String.append s s').
Proof. reflexivity. Qed.

Lemma Index_from_no_hash (ns rest : string) (i : Z) :
  no_hash ns = true ->
  strings.Index_from (String.append ns (String "#"%char rest)) "#" i
  = i + Z.of_nat (String.length ns).
Proof.
  revert i. induction ns as [|c ns IH]; intros i Hns.
  - rewrite append_nil. destruct rest; cbn; lia.
  - cbn in Hns. apply andb_true_iff in Hns as [Hc Hns].
    apply negb_true_iff, Ascii.eqb_neq in Hc.
    rewrite append_cons. cbn [strings.Index_from String.prefix].
    destruct (ascii_dec "#"%char c) as [<-|_]; [congruence|].
    rewrite IH by exact Hns. cbn [String.length]. lia.
Qed.

Lemma Index_from_absent (s : string) (i : Z) :
  no_hash s = true -> strings.Index_from s "#" i = -1.
Proof.
  revert i. induction s as [|c s IH]; intros i Hs; [reflexivity|].
  cbn in Hs. apply andb_true_iff in Hs as [Hc Hs].
  apply negb_true_iff, Ascii.eqb_neq in Hc.
  cbn [strings.Index_from String.prefix].
  destruct (ascii_dec "#"%char c) as [<-|_]; [congruence|]. now apply IH.
Qed.

Lemma slice_from_append (ns rest : string) :
  strings.slice_from (String.append ns rest) (String.length ns) = rest.
Proof.
  induction ns as [|c ns IH]; [now destruct rest|].
  rewrite append_cons. exact IH.
Qed.

Lemma after_last_hash_absent (s : string) :
  no_hash s = true -> after_last_hash s = None.
Proof.
  induction s as [|c s IH]; intros Hs; [reflexivity|].
  cbn in Hs. apply andb_true_iff in Hs as [Hc Hs]. apply negb_true_iff in Hc.
  cbn. now rewrite IH, Hc.
Qed.

Lemma after_last_hash_append (ns name : string) :
  no_hash name = true ->
  after_last_hash (String.append ns (String "#"%char name)) = Some name.
Proof.
  intros Hname. induction ns as [|c ns IH].
  - rewrite append_nil. cbn. now rewrite after_last_hash_absent.
  - rewrite append_cons. cbn [after_last_hash]. now rewrite IH.
Qed.

(** On a type string with one ['#'] that is not its first byte, or with
    none, [buildError] gives the code that the specification words. *)
Lemma buildError_code_single_hash (r : Response) (body : string) (doc : json)
    (ns name : string) :
  NewJson body = inr doc ->
  no_hash ns = true -> no_hash name = true -> ns <> EmptyString ->
  (simplejson.Get doc "__type" = JString (String.append ns (String "#"%char name)) ->
   Code (buildError r body) = name
   /\ code_of_type (String.append ns (String "#"%char name)) = name)
  /\ (simplejson.Get doc "__type" = JString name ->
      Code (buildError r body) = name /\ code_of_type name = name).
Proof.
  intros Hdoc Hns Hname Hne. split; intros Hty.
  - rewrite (buildError_code r body doc Hdoc), Hty. cbn [simplejson.MustString].
    unfold strings.Index, code_of_type. cbv zeta.
    rewrite Index_from_no_hash, after_last_hash_append by assumption.
    assert (0 < String.length ns)%nat by (destruct ns; [congruence | cbn; lia]).
    replace (0 <? 0 + Z.of_nat (String.length ns)) with true
      by (symmetry; apply Z.ltb_lt; lia).
    replace (Z.to_nat (0 + Z.of_nat (String.length ns) + 1))
      with (String.length (String.append ns "#")).
    + replace (String.append ns (String "#"%char name))
        with (String.append (String.append ns "#") name).
      * now rewrite slice_from_append.
      * clear. induction ns as [|c ns IH]; [reflexivity|].
        rewrite !append_cons. now rewrite IH.
    + clear. induction ns as [|c ns IH]; [reflexivity|].
      rewrite append_cons. cbn [String.length]. rewrite IH. lia.
  - rewrite (buildError_code r body doc Hdoc), Hty. cbn [simplejson.MustString].
    unfold strings.Index, code_of_type. cbv zeta.
    now rewrite Index_from_absent, after_last_hash_absent.
Qed.

(** C6, at a type string with two ['#'].  [buildError] cuts the string
    after its first ['#'] and keeps ["validate#ValidationException"], where
    the suffix after the last ['#'] is ["ValidationException"]; and a type
    string that starts with ['#'] is kept whole. *)
Theorem buildError_code_first_hash (r : Response) (body : string) (doc : json) :
  NewJson body = inr doc ->
  (simplejson.Get doc "__type" = JString "com.amazon.coral#validate#ValidationException" ->
   Code (buildError r body) = "validate#ValidationException"
   /\ code_of_type "com.amazon.coral#validate#ValidationException" = "ValidationException")
  /\ (simplejson.Get doc "__type" = JString "#ValidationException" ->
      Code (buildError r body) = "#ValidationException"
      /\ code_of_type "#ValidationException" = "ValidationException").
Proof.
  intros Hdoc. split; intros Hty;
    rewrite (buildError_code r body doc Hdoc), Hty; split; reflexivity.
Qed.

End BuildError.

(** A response with status 400 whose type string has two ['#']. *)
Lemma buildError_code_first_hash_witness :
  let doc := JObject {["__type" := JString "com.amazon.coral#validate#ValidationException";
                       "message" := JString "bad request"]} in
  let reader := table_JsonReader [("two hashes", doc)] in
  @buildError reader (mkResponse 400 "400 Bad Request") "two hashes"
  = mkError 400 "400 Bad Request" "validate#ValidationException" "bad request"
  /\ code_of_type "com.amazon.coral#validate#ValidationException" = "ValidationException".
Proof.
  intros doc reader.
  destruct (@buildError_code_first_hash reader (mkResponse 400 "400 Bad Request")
              "two hashes" doc eq_refl) as [Htwo _].
  destruct (Htwo eq_refl) as [Hcode Hspec].
  split; [reflexivity | exact Hspec].
Defined.

(** A response without "Item" and a response with an empty "Item". *)
Lemma getItem_not_found_distinction_witness :
  let start := mkCalls 0 [] in
  @getItem item_reader _ (scripted_Remote [("absent", None)]) test_server "k" false true start
  = ((None, Some ErrNotFound), mkCalls 1 [])
  /\ @getItem item_reader _ (scripted_Remote [("present", None)]) test_server "k" false true start
     = ((Some ∅, None), mkCalls 1 []).
Proof.
  intros start. split.
  - apply (@getItem_not_found_distinction item_reader _ (scripted_Remote [("absent", None)])
             test_server "k" false true start "absent" (JObject ∅));
      [reflexivity | reflexivity |].
    intros fields [= <-]. reflexivity.
  - apply (@getItem_not_found_distinction item_reader _ (scripted_Remote [("present", None)])
             test_server "k" false true start "present"
             (JObject {["Item" := JObject ∅]}));
      [reflexivity | reflexivity |].
    eexists. split; reflexivity.
Defined.

(** One unprocessed item for table [T], and none. *)
Lemma BatchWriteItem_Execute_unprocessed_witness :
  let start := mkCalls 0 [] in
  @BatchWriteItem_Execute batch_reader _ (scripted_Remote [("partial", None)])
                          test_batch true start
  = ((Some unprocessed_T, Some (ErrNew "One or more unprocessed items.")), mkCalls 1 [])
  /\ @BatchWriteItem_Execute batch_reader _ (scripted_Remote [("complete", None)])
                             test_batch true start
     = ((None, None), mkCalls 1 []).
Proof.
  intros start. split.
  - apply (@BatchWriteItem_Execute_unprocessed batch_reader _
             (scripted_Remote [("partial", None)]) test_batch true start "partial"
             {["UnprocessedItems" := JObject unprocessed_T]} unprocessed_T);
      [reflexivity | reflexivity | reflexivity |].
    intros Hempty. apply (f_equal (fun m => m !! "T")) in Hempty. discriminate.
  - apply (@BatchWriteItem_Execute_unprocessed batch_reader _
             (scripted_Remote [("complete", None)]) test_batch true start "complete"
             {["UnprocessedItems" := JObject ∅]} ∅);
      reflexivity.
Defined.

(** * More properties of the code *)

(** ** [parseAttributes] *)

Lemma parseAttributes_entry_shape (key : string) (value : json) (a : Attribute) :
  parseAttributes_entry key value = Some a ->
  exists v, value = JObject v
            /\ Name a = key
            /\ supported a = true
            /\ List.find (type_correct v) tag_priority = Some (Type_ a).
Proof.
  destruct value as [| | | | |v]; try discriminate. intros Hentry.
  exists v. split; [reflexivity|].
  assert (Hwf : well_formed (JObject v) = true).
  { revert Hentry. unfold well_formed, parseAttributes_entry, tag_priority, type_correct.
    cbn [existsb isSetType String.eqb Ascii.eqb Bool.eqb orb
         TYPE_STRING TYPE_NUMBER TYPE_BINARY
         TYPE_STRING_SET TYPE_NUMBER_SET TYPE_BINARY_SET].
    repeat match goal with
           | |- context [assert_string ?x] => destruct (assert_string x) eqn:?
           | |- context [assert_slice ?x] => destruct (assert_slice x) eqn:?
           end;
      repeat (rewrite bool_decide_eq_true_2 by eauto);
      repeat (rewrite bool_decide_eq_false_2 by (intros []; discriminate));
      intros Hentry; try reflexivity; discriminate. }
  destruct (well_formed_decodes key v Hwf) as (a' & Hdec & Hname & Hfind & _).
  rewrite Hentry in Hdec. injection Hdec as <-.
  split; [exact Hname|]. split; [|exact Hfind].
  revert Hentry. unfold parseAttributes_entry.
  repeat match goal with
         | |- context [assert_string ?x] => destruct (assert_string x)
         | |- context [assert_slice ?x] => destruct (assert_slice x)
         end;
    intros [= <-]; reflexivity || discriminate.
Qed.

(** X1.  Every attribute that [parseAttributes] returns is stored under its
    own name, comes from an object of the item, has the type of the first
    type-correct tag of that object, and carries the payload of its type
    only: a scalar has no set members, a set has members and no scalar. *)
Theorem parseAttributes_decoded_attribute (s : gmap string json) (key : string)
    (a : Attribute) :
  parseAttributes s !! key = Some a ->
  Name a = key
  /\ supported a = true
  /\ exists v, s !! key = Some (JObject v)
               /\ List.find (type_correct v) tag_priority = Some (Type_ a).
Proof.
  rewrite lookup_parseAttributes. destruct (s !! key) as [value|]; [|discriminate].
  cbn. intros Hentry.
  destruct (parseAttributes_entry_shape key value a Hentry) as (v & -> & Hn & Hs & Hf).
  split; [exact Hn|]. split; [exact Hs|]. exists v. now split.
Qed.

(** An object with both a number set and a string decodes as the string. *)
Lemma parseAttributes_decoded_attribute_witness :
  let a := mkAttribute "S" "k" "one" None in
  Name a = "k" /\ supported a = true
  /\ exists v, ({["k" := JObject (<["NS" := JArray [JString "1"]]> {["S" := JString "one"]})]}
                 : gmap string json) !! "k" = Some (JObject v)
               /\ List.find (type_correct v) tag_priority = Some (Type_ a).
Proof.
  apply (parseAttributes_decoded_attribute
           {["k" := JObject (<["NS" := JArray [JString "1"]]> {["S" := JString "one"]})]}
           "k" (mkAttribute "S" "k" "one" None)).
  reflexivity.
Defined.

(** X2.  Decoding works field by field: writing a field of the item
    rewrites or removes that one attribute and leaves the others; removing a
    field removes its attribute; the result has no key that the item has
    not, and the empty item decodes to the empty (not [nil]) map. *)
Theorem parseAttributes_fieldwise (s : gmap string json) (key : string) (value : json) :
  parseAttributes (<[key := value]> s)
  = match parseAttributes_entry key value with
    | Some a => <[key := a]> (parseAttributes s)
    | None => delete key (parseAttributes s)
    end
  /\ parseAttributes (delete key s) = delete key (parseAttributes s)
  /\ dom (parseAttributes s) ⊆ dom s
  /\ parseAttributes ∅ = ∅.
Proof.
  split; [|split; [|split]].
  - apply map_eq. intros k. rewrite lookup_parseAttributes.
    destruct (decide (k = key)) as [->|Hne].
    + rewrite lookup_insert_eq. cbn.
      destruct (parseAttributes_entry key value).
      * now rewrite lookup_insert_eq.
      * now rewrite lookup_delete_eq.
    + rewrite lookup_insert_ne by congruence.
      destruct (parseAttributes_entry key value).
      * rewrite lookup_insert_ne by congruence. now rewrite lookup_parseAttributes.
      * rewrite lookup_delete_ne by congruence. now rewrite lookup_parseAttributes.
  - apply map_eq. intros k. rewrite lookup_parseAttributes.
    destruct (decide (k = key)) as [->|Hne].
    + now rewrite !lookup_delete_eq.
    + rewrite !lookup_delete_ne by congruence. now rewrite lookup_parseAttributes.
  - intros k. rewrite !elem_of_dom, lookup_parseAttributes.
    destruct (s !! k); [eauto | intros [? [=]]].
  - unfold parseAttributes. apply map_fold_empty.
Qed.

Lemma fill_arry_lookup (vals : list json) (i : nat) :
  fill_arry vals !! i
  = (fun ivalue => match ivalue with JString val => val | _ => EmptyString end)
      <$> vals !! i.
Proof. unfold fill_arry. apply list_lookup_fmap. Qed.

(** X3.  The members of a decoded set are the members of the list on the
    wire, in its order and number: a member that is a string is kept, and a
    member that is not (a number, an object, null) becomes the empty string
    instead of making the decoding fail. *)
Theorem parseAttributes_set_members (key : string) (v : gmap string json)
    (a : Attribute) :
  parseAttributes_entry key (JObject v) = Some a ->
  isSetType (Type_ a) = true ->
  exists (vals : list json) (members : list string),
    v !! Type_ a = Some (JArray vals)
    /\ SetValues a = Some members
    /\ length members = length vals
    /\ (forall i s, vals !! i = Some (JString s) -> members !! i = Some s)
    /\ (forall i x, vals !! i = Some x -> (forall s, x <> JString s) ->
                    members !! i = Some EmptyString).
Proof.
  unfold parseAttributes_entry.
  repeat match goal with
         | |- context [assert_string ?x] => destruct (assert_string x) eqn:?
         end;
    try (intros [= <-]; discriminate).
  repeat match goal with
         | |- context [assert_slice (v !! ?tag)] =>
             let H := fresh "Hslice" in
             destruct (assert_slice (v !! tag)) as [vals|] eqn:H;
             [ intros [= <-] _; exists vals, (fill_arry vals);
               cbn [Type_ SetValues];
               destruct (v !! tag) as [[| | | |l|]|]; try discriminate;
               injection H as ->;
               (split; [reflexivity|]); (split; [reflexivity|]);
               (split; [unfold fill_arry; apply length_fmap|]);
               split;
               [ intros i s Hi; rewrite fill_arry_lookup, Hi; reflexivity
               | intros i x Hi Hns; rewrite fill_arry_lookup, Hi;
                 destruct x; try reflexivity; now destruct (Hns s) ]
             | ]
         end.
  discriminate.
Qed.

(** A number set with a string and a number on the wire. *)
Lemma parseAttributes_set_members_witness :
  exists (vals : list json) (members : list string),
    ({["NS" := JArray [JString "1"; JNumber "2"]]} : gmap string json) !! "NS"
    = Some (JArray vals)
    /\ Some ["1"; EmptyString] = Some members
    /\ length members = length vals
    /\ (forall i s, vals !! i = Some (JString s) -> members !! i = Some s)
    /\ (forall i x, vals !! i = Some x -> (forall s, x <> JString s) ->
                    members !! i = Some EmptyString).
Proof.
  apply (parseAttributes_set_members "k" {["NS" := JArray [JString "1"; JNumber "2"]]}
           (mkAttribute "NS" "k" "" (Some ["1"; EmptyString])));
    reflexivity.
Defined.

(** ** The operations of [item.go] and [CountQuery] *)

Section MoreItemOps.

Context `{reader : JsonReader} `{numbers : NumberReader} `{builder : Builder}
        `{remote : !Remote} `{querybuilder : !QueryBuilder}.

(** Unfolding of the state passing of one operation. *)
Ltac run_operation :=
  unfold mbind, M_bind, mret, M_ret, queryServer3; cbn [fst snd calls waited].

(** X4.  Apart from [putItem], every operation makes exactly one call to
    the server and never waits, whatever the reply: there is no retry for
    reads, updates, deletes, counts and batches. *)
Theorem one_call_per_operation (t : Table) (key : Key) (attributes : list Attribute)
    (expected : option (list Attribute)) (action : string)
    (consistentRead isRetry : bool) (batchWriteItem : BatchWriteItem)
    (batchGetItem : BatchGetItem) (attributeComparisons : list AttributeComparison)
    (w : Calls) :
  attributes <> [] ->
  let w' := mkCalls (S (calls w)) (waited w) in
  snd (getItem t key consistentRead isRetry w) = w'
  /\ snd (modifyAttributes t key attributes expected action isRetry w) = w'
  /\ snd (deleteItem t key expected isRetry w) = w'
  /\ snd (BatchWriteItem_Execute batchWriteItem isRetry w) = w'
  /\ snd (BatchGetItem_Execute batchGetItem isRetry w) = w'
  /\ snd (CountQuery t attributeComparisons isRetry w) = w'.
Proof.
  intros Hne w'. subst w'. repeat split.
  - unfold getItem. run_operation.
    destruct (queryServer_reply _ _ _ _ _) as [body [err|]]; [reflexivity|].
    destruct (NewJson body) as [e|doc]; [reflexivity|].
    destruct (simplejson.CheckGet doc "Item") as [itemJson|]; [|reflexivity].
    now destruct (simplejson.Map itemJson).
  - unfold modifyAttributes. destruct attributes; [contradiction|]. cbn [length Nat.eqb].
    run_operation.
    destruct (queryServer_reply _ _ _ _ _) as [body [err|]]; [reflexivity|].
    now destruct (NewJson body).
  - unfold deleteItem. run_operation.
    destruct (queryServer_reply _ _ _ _ _) as [body [err|]]; [reflexivity|].
    now destruct (NewJson body).
  - unfold BatchWriteItem_Execute. run_operation.
    destruct (queryServer_reply _ _ _ _ _) as [body [err|]]; [reflexivity|].
    destruct (NewJson body) as [e|doc]; [reflexivity|].
    destruct (simplejson.Map _) as [e|unprocessed]; [reflexivity|].
    now destruct (size unprocessed =? 0)%nat.
  - unfold BatchGetItem_Execute. run_operation.
    destruct (queryServer_reply _ _ _ _ _) as [body [err|]]; [reflexivity|].
    destruct (NewJson body) as [e|doc]; [reflexivity|].
    destruct (simplejson.Map _) as [e|tables]; [reflexivity|].
    now destruct (BatchGetItem_results tables).
  - unfold CountQuery. run_operation.
    destruct (queryServer_reply _ _ _ _ _) as [body [err|]]; [reflexivity|].
    destruct (NewJson body) as [e|doc]; [reflexivity|].
    now destruct (simplejson.Int64 _).
Qed.

(** X5.  An error of the server comes back unchanged, with the zero value
    of the result: a [nil] map, [false] or the count 0. *)
Theorem server_error_is_returned (t : Table) (key : Key) (attributes : list Attribute)
    (expected : option (list Attribute)) (action : string)
    (consistentRead isRetry : bool) (batchWriteItem : BatchWriteItem)
    (batchGetItem : BatchGetItem) (attributeComparisons : list AttributeComparison)
    (w : Calls) (body : string) (err : error) :
  attributes <> [] ->
  (forall s target q, queryServer_reply (calls w) s target q isRetry = (body, Some err)) ->
  fst (getItem t key consistentRead isRetry w) = (None, Some err)
  /\ fst (modifyAttributes t key attributes expected action isRetry w) = (false, Some err)
  /\ fst (deleteItem t key expected isRetry w) = (false, Some err)
  /\ fst (BatchWriteItem_Execute batchWriteItem isRetry w) = (None, Some err)
  /\ fst (BatchGetItem_Execute batchGetItem isRetry w) = (None, Some err)
  /\ fst (CountQuery t attributeComparisons isRetry w) = (0, Some err).
Proof.
  intros Hne Hreply. repeat split.
  - unfold getItem. run_operation. now rewrite Hreply.
  - unfold modifyAttributes. destruct attributes; [contradiction|]. cbn [length Nat.eqb].
    run_operation. now rewrite Hreply.
  - unfold deleteItem. run_operation. now rewrite Hreply.
  - unfold BatchWriteItem_Execute. run_operation. now rewrite Hreply.
  - unfold BatchGetItem_Execute. run_operation. now rewrite Hreply.
  - unfold CountQuery. run_operation. now rewrite Hreply.
Qed.

(** X6.  The three write operations return [true] exactly with a [nil]
    error: the result is [(true, nil)] or [(false, err)] with an error. *)
Theorem write_result_is_consistent (t : Table) (hashKey rangeKey : string) (key : Key)
    (attributes : list Attribute) (expected : option (list Attribute))
    (action : string) (isRetry : bool) (w : Calls) :
  let consistent (r : bool * option error) :=
    r = (true, None) \/ exists err, r = (false, Some err) in
  consistent (fst (putItem t hashKey rangeKey attributes expected isRetry w))
  /\ consistent (fst (modifyAttributes t key attributes expected action isRetry w))
  /\ consistent (fst (deleteItem t key expected isRetry w)).
Proof.
  cbv zeta. split; [|split].
  - destruct attributes as [|a rest]; [right; eexists; reflexivity|].
    rewrite putItem_nonempty by discriminate.
    destruct (putItem_loop _ _ _ _ _) as [[body [err|]] w']; cbn.
    + right. now eexists.
    + destruct (NewJson body); [right; now eexists | now left].
  - unfold modifyAttributes.
    destruct attributes; cbn [length Nat.eqb]; [right; eexists; reflexivity|].
    run_operation.
    destruct (queryServer_reply _ _ _ _ _) as [body [err|]]; cbn.
    + right. now eexists.
    + destruct (NewJson body); [right; now eexists | now left].
  - unfold deleteItem. run_operation.
    destruct (queryServer_reply _ _ _ _ _) as [body [err|]]; cbn.
    + right. now eexists.
    + destruct (NewJson body); [right; now eexists | now left].
Qed.

(** X7.  An update or a delete succeeds exactly when the reply has a [nil]
    error and a body that the JSON reader accepts; the content of the body
    is not looked at. *)
Theorem update_and_delete_succeed_iff (t : Table) (key : Key)
    (attributes : list Attribute) (expected : option (list Attribute))
    (action : string) (isRetry : bool) (w : Calls) (body : string) (err : option error) :
  attributes <> [] ->
  (forall target q, queryServer_reply (calls w) (Table_Server t) target q isRetry
                    = (body, err)) ->
  let accepted := err = None /\ exists doc, NewJson body = inr doc in
  (fst (modifyAttributes t key attributes expected action isRetry w) = (true, None)
   <-> accepted)
  /\ (fst (deleteItem t key expected isRetry w) = (true, None) <-> accepted).
Proof.
  intros Hne Hreply accepted. subst accepted. split.
  - unfold modifyAttributes. destruct attributes; [contradiction|]. cbn [length Nat.eqb].
    run_operation. rewrite Hreply. destruct err as [e|]; cbn.
    + split; [discriminate | intros [[=] _]].
    + destruct (NewJson body) as [e|doc]; cbn.
      * split; [discriminate | intros [_ [doc [=]]]].
      * split; [intros _; split; [reflexivity | now exists doc] | reflexivity].
  - unfold deleteItem. run_operation. rewrite Hreply. destruct err as [e|]; cbn.
    + split; [discriminate | intros [[=] _]].
    + destruct (NewJson body) as [e|doc]; cbn.
      * split; [discriminate | intros [_ [doc [=]]]].
      * split; [intros _; split; [reflexivity | now exists doc] | reflexivity].
Qed.

(** X8.  When the first reply to [putItem] has a [nil] error, the call ends
    after this one attempt without waiting; the result is [(true, nil)] when
    the body is a JSON document and [(false, err)] with the error of
    the reader when it is not: such a reply is not tried again. *)
Theorem putItem_first_reply_without_error (t : Table) (hashKey rangeKey : string)
    (attributes : list Attribute) (expected : option (list Attribute))
    (isRetry : bool) (w : Calls) (body : string) :
  attributes <> [] ->
  put_reply (Table_Server t) (putItem_query t hashKey rangeKey attributes expected)
            isRetry (calls w) = (body, None) ->
  putItem t hashKey rangeKey attributes expected isRetry w
  = (match NewJson body with
     | inl err => (false, Some err)
     | inr _ => (true, None)
     end, mkCalls (S (calls w)) (waited w)).
Proof.
  intros Hne Hreply. rewrite putItem_nonempty by exact Hne.
  rewrite (putItem_loop_run _ _ _ 0); unfold maxNumberOfRetry;
    rewrite ?Nat.add_0_r; [| lia | lia | intros i Hi; lia |].
  - rewrite Hreply. cbn. rewrite app_nil_r. now destruct (NewJson body).
  - right. rewrite Hreply. intros (e & [=] & _).
Qed.

(** X9.  When the response to [getItem] has an "Item" that is an object,
    the result is the decoding of that object with a [nil] error; when
    "Item" is there but is no object (null, a string, a list), the result is
    the generic error "Unexpected response" with the body, and not
    [ErrNotFound]. *)
Theorem getItem_item_field (t : Table) (key : Key) (consistentRead isRetry : bool)
    (w : Calls) (body : string) (fields : gmap string json) (itemJson : json) :
  (forall q, queryServer_reply (calls w) (Table_Server t) (target "GetItem") q isRetry
             = (body, None)) ->
  NewJson body = inr (JObject fields) ->
  fields !! "Item" = Some itemJson ->
  getItem t key consistentRead isRetry w
  = (match itemJson with
     | JObject item => (Some (parseAttributes item), None)
     | _ => (None, Some (ErrNew (String.append "Unexpected response " body)))
     end, mkCalls (S (calls w)) (waited w)).
Proof.
  intros Hreply Hjson Hitem. unfold getItem. run_operation.
  rewrite Hreply. cbn. rewrite Hjson. unfold simplejson.CheckGet. cbn.
  rewrite Hitem. now destruct itemJson.
Qed.


Lemma BatchGetItem_entries_objects (items : list (gmap string json)) :
  BatchGetItem_entries (JObject <$> items) = Some (parseAttributes <$> items).
Proof.
  induction items as [|item items IH]; [reflexivity|].
  cbn. now rewrite IH.
Qed.

Lemma BatchGetItem_entries_not_object (jsonEntriesArray : list json) (entry : json) :
  entry ∈ jsonEntriesArray -> (forall item, entry <> JObject item) ->
  BatchGetItem_entries jsonEntriesArray = None.
Proof.
  intros Hin Hnot. induction Hin as [entry rest|entry other rest Hin IH]; cbn.
  - destruct entry; try reflexivity. now destruct (Hnot m).
  - destruct other; try reflexivity. now rewrite IH.
Qed.

(** What the loop over the tables comes to: every table decoded, or a
    table that does not decode. *)
Lemma BatchGetItem_results_spec (tables : gmap string json) :
  match BatchGetItem_results tables with
  | Some results =>
      (forall table, results !! table = tables !! table ≫= BatchGetItem_table)
      /\ (forall table entries, tables !! table = Some entries ->
                                is_Some (BatchGetItem_table entries))
  | None =>
      exists table entries,
        tables !! table = Some entries /\ BatchGetItem_table entries = None
  end.
Proof.
  unfold BatchGetItem_results.
  apply (map_fold_weak_ind (fun acc tables =>
    match acc with
    | Some results =>
        (forall table, results !! table = tables !! table ≫= BatchGetItem_table)
        /\ (forall table entries, tables !! table = Some entries ->
                                  is_Some (BatchGetItem_table entries))
    | None =>
        exists table entries,
          tables !! table = Some entries /\ BatchGetItem_table entries = None
    end)).
  - split; [intros table; now rewrite !lookup_empty|].
    intros table entries. now rewrite lookup_empty.
  - intros i x m acc Hfresh IH. destruct acc as [results|].
    + destruct IH as [IHlookup IHall].
      destruct (BatchGetItem_table x) as [tableResult|] eqn:Hx.
      * split.
        -- intros table. destruct (decide (table = i)) as [->|Hne].
           ++ rewrite !lookup_insert_eq. cbn. now rewrite Hx.
           ++ rewrite !lookup_insert_ne by congruence. apply IHlookup.
        -- intros table entries. destruct (decide (table = i)) as [->|Hne].
           ++ rewrite lookup_insert_eq. intros [= <-]. now rewrite Hx.
           ++ rewrite lookup_insert_ne by congruence. apply IHall.
      * exists i, x. split; [apply lookup_insert_eq | exact Hx].
    + destruct IH as (table & entries & Hlookup & Hnone).
      exists table, entries. split; [|exact Hnone].
      rewrite lookup_insert_ne; [exact Hlookup|]. intros ->. congruence.
Qed.

(** X10.  When every table of "Responses" has a list of objects,
    [BatchGetItem.Execute] returns for each table the decoded items of its
    list, in the order of the response. *)
Theorem BatchGetItem_Execute_decodes (batchGetItem : BatchGetItem) (isRetry : bool)
    (w : Calls) (body : string) (fields : gmap string json)
    (itemsByTable : gmap string (list (gmap string json))) :
  (forall q, queryServer_reply (calls w) (bg_Server batchGetItem)
                               "DynamoDB_20120810.BatchGetItem" q isRetry
             = (body, None)) ->
  NewJson body = inr (JObject fields) ->
  fields !! "Responses"
  = Some (JObject ((fun items : list (gmap string json) => JArray (JObject <$> items))
                     <$> itemsByTable)) ->
  BatchGetItem_Execute batchGetItem isRetry w
  = ((Some ((fun items : list (gmap string json) => parseAttributes <$> items)
              <$> itemsByTable), None),
     mkCalls (S (calls w)) (waited w)).
Proof.
  intros Hreply Hjson Hresponses. unfold BatchGetItem_Execute. run_operation.
  rewrite Hreply. cbn. rewrite Hjson. unfold simplejson.Get. cbn.
  rewrite Hresponses. cbn.
  pose proof (BatchGetItem_results_spec
                ((fun items : list (gmap string json) => JArray (JObject <$> items))
                   <$> itemsByTable)) as Hspec.
  destruct (BatchGetItem_results _) as [results|].
  - destruct Hspec as [Hspec _]. do 3 f_equal. apply map_eq. intros table.
    rewrite Hspec, !lookup_fmap. destruct (itemsByTable !! table) as [items|]; cbn.
    + apply BatchGetItem_entries_objects.
    + reflexivity.
  - destruct Hspec as (table & entries & Hlookup & Hnone).
    rewrite lookup_fmap in Hlookup.
    destruct (itemsByTable !! table) as [items|]; [|discriminate].
    injection Hlookup as <-. cbn in Hnone.
    now rewrite BatchGetItem_entries_objects in Hnone.
Qed.

(** X11.  When "Responses" is missing or is no object, or when one of its
    tables has a value that is no list, or a list with a member that is no
    object, [BatchGetItem.Execute] returns a [nil] map with the error
    "Unexpected response" and the body: the items of the other tables are
    not returned. *)
Theorem BatchGetItem_Execute_malformed (batchGetItem : BatchGetItem) (isRetry : bool)
    (w : Calls) (body : string) (fields : gmap string json) :
  (forall q, queryServer_reply (calls w) (bg_Server batchGetItem)
                               "DynamoDB_20120810.BatchGetItem" q isRetry
             = (body, None)) ->
  NewJson body = inr (JObject fields) ->
  (forall tables, fields !! "Responses" <> Some (JObject tables))
  \/ (exists tables table entries,
        fields !! "Responses" = Some (JObject tables)
        /\ tables !! table = Some entries
        /\ ((forall l, entries <> JArray l)
            \/ exists l entry, entries = JArray l /\ entry ∈ l
                               /\ forall item, entry <> JObject item)) ->
  BatchGetItem_Execute batchGetItem isRetry w
  = ((None, Some (ErrNew (String.append "Unexpected response " body))),
     mkCalls (S (calls w)) (waited w)).
Proof.
  intros Hreply Hjson Hbad. unfold BatchGetItem_Execute. run_operation.
  rewrite Hreply. cbn. rewrite Hjson. unfold simplejson.Get. cbn.
  destruct Hbad as [Hnone | (tables & table & entries & Hresponses & Hlookup & Hentries)].
  - destruct (fields !! "Responses") as [[| | | | |tables]|]; try reflexivity.
    now destruct (Hnone tables).
  - rewrite Hresponses. cbn.
    pose proof (BatchGetItem_results_spec tables) as Hspec.
    destruct (BatchGetItem_results tables) as [results|]; [|reflexivity].
    exfalso. destruct Hspec as [_ Hall].
    destruct (Hall table entries Hlookup) as [tableResult Hdecoded].
    destruct Hentries as [Hnot | (l & entry & -> & Hin & Hnot)].
    + destruct entries; try discriminate. now destruct (Hnot l).
    + cbn in Hdecoded.
      now rewrite (BatchGetItem_entries_not_object l entry) in Hdecoded.
Qed.

(** X12.  When the response to [BatchWriteItem.Execute] has no
    "UnprocessedItems", or one that is no object, the call is an error
    ("Unexpected response" and the body) and not a success. *)
Theorem BatchWriteItem_Execute_malformed (batchWriteItem : BatchWriteItem)
    (isRetry : bool) (w : Calls) (body : string) (fields : gmap string json) :
  (forall q, queryServer_reply (calls w) (bw_Server batchWriteItem)
                               "DynamoDB_20120810.BatchWriteItem" q isRetry
             = (body, None)) ->
  NewJson body = inr (JObject fields) ->
  (forall unprocessed, fields !! "UnprocessedItems" <> Some (JObject unprocessed)) ->
  BatchWriteItem_Execute batchWriteItem isRetry w
  = ((None, Some (ErrNew (String.append "Unexpected response " body))),
     mkCalls (S (calls w)) (waited w)).
Proof.
  intros Hreply Hjson Hnone. unfold BatchWriteItem_Execute. run_operation.
  rewrite Hreply. cbn. rewrite Hjson. unfold simplejson.Get. cbn.
  destruct (fields !! "UnprocessedItems") as [[| | | | |unprocessed]|]; try reflexivity.
  now destruct (Hnone unprocessed).
Qed.

(** X13.  [CountQuery] returns the integer read from the number "Count"
    with a [nil] error; when "Count" is missing or is no number, or when the
    number is no integer, it returns 0 with an error. *)
Theorem CountQuery_count (t : Table) (attributeComparisons : list AttributeComparison)
    (isRetry : bool) (w : Calls) (body : string) (fields : gmap string json) :
  (forall q, queryServer_reply (calls w) (Table_Server t) "DynamoDB_20120810.Query"
                               q isRetry
             = (body, None)) ->
  NewJson body = inr (JObject fields) ->
  let run := CountQuery t attributeComparisons isRetry w in
  (forall n itemCount, fields !! "Count" = Some (JNumber n) ->
                       Number_Int64 n = inr itemCount ->
                       fst run = (itemCount, None))
  /\ (forall n err, fields !! "Count" = Some (JNumber n) ->
                    Number_Int64 n = inl err ->
                    fst run = (0, Some err))
  /\ ((forall n, fields !! "Count" <> Some (JNumber n)) ->
      exists err, fst run = (0, Some err)).
Proof.
  intros Hreply Hjson run. subst run. unfold CountQuery. run_operation.
  rewrite Hreply. cbn. rewrite Hjson. unfold simplejson.Get. cbn.
  split; [|split].
  - intros n itemCount Hcount Hint. rewrite Hcount. cbn. now rewrite Hint.
  - intros n err Hcount Hint. rewrite Hcount. cbn. now rewrite Hint.
  - intros Hnone.
    destruct (fields !! "Count") as [[| |n| | |]|]; cbn; try (eexists; reflexivity).
    now destruct (Hnone n).
Qed.

End MoreItemOps.

(** ** [rawQueryServer], [queryServer] and [buildError] *)

Section MoreTransport.

Context `{reader : JsonReader} `{transport : Transport} `{builder : Builder}.

(** X14.  [rawQueryServer] retries nothing but throttled responses: when
    the exchange is a failure of the transport, a response 200, or an error
    response with any other code (HTTP 500 and ThrottlingException among
    them), the outcome comes back after this one request and without sleep,
    also for a caller that opted in. *)
Theorem rawQueryServer_returns_at_once (fuel : nat) (s : Server)
    (target query : string) (retryCount : Z) (w : Net) :
  http_NewRequest_error (String.append (Region_DynamoDBEndpoint s) "/") = None ->
  throttled (http_Do (sent w) s target query) = false ->
  rawQueryServer (S fuel) s target query retryCount w
  = Some (outcome (http_Do (sent w) s target query), mkNet (S (sent w)) (slept w)).
Proof. apply rawQueryServer_final_step. Qed.

(** X15.  Whenever [rawQueryServer] returns: the sleeps it made were added
    after those recorded before; it sent one request more than it slept,
    unless the request could not be built, in which case it sent none and
    did not sleep; a caller that did not opt in never sleeps; and the result
    never has both a body and an error. *)
Theorem rawQueryServer_requests_and_sleeps (fuel : nat) (s : Server)
    (target query : string) (retryCount : Z) (w w' : Net) (res : QResult) :
  rawQueryServer fuel s target query retryCount w = Some (res, w') ->
  exists sleeps : list Z,
    slept w' = slept w ++ sleeps
    /\ (http_NewRequest_error (String.append (Region_DynamoDBEndpoint s) "/") = None ->
        sent w' = (sent w + S (length sleeps))%nat)
    /\ (http_NewRequest_error (String.append (Region_DynamoDBEndpoint s) "/") <> None ->
        w' = w)
    /\ (retryCount < 0 -> sleeps = [])
    /\ (snd res = None \/ fst res = EmptyString).
Proof.
  remember (http_NewRequest_error (String.append (Region_DynamoDBEndpoint s) "/"))
    as req eqn:Hreq.
  revert retryCount w. induction fuel as [|fuel IH]; intros retryCount w; [discriminate|].
  cbn [rawQueryServer]. rewrite <- Hreq.
  destruct req as [e|].
  { intros [= <- <-]. exists []. rewrite app_nil_r.
    repeat split; try (now right); congruence. }
  assert (Hdone : forall r : QResult, (snd r = None \/ fst r = EmptyString) ->
            Some (r, mkNet (S (sent w)) (slept w)) = Some (res, w') ->
            exists sleeps : list Z,
              slept w' = slept w ++ sleeps
              /\ (@None error = None -> sent w' = (sent w + S (length sleeps))%nat)
              /\ (@None error <> None -> w' = w)
              /\ (retryCount < 0 -> sleeps = [])
              /\ (snd res = None \/ fst res = EmptyString)).
  { intros r Hr [= <- <-]. exists []. cbn. rewrite app_nil_r.
    repeat split; [lia | congruence | exact Hr]. }
  destruct (http_Do (sent w) s target query) as [e|e|resp body];
    [apply Hdone; now right | apply Hdone; now right |].
  destruct (negb (resp_StatusCode resp =? 200)); [|apply Hdone; now left].
  destruct (String.eqb _ _); [|apply Hdone; now right].
  destruct (0 <=? retryCount) eqn:Hopt; [|apply Hdone; now right].
  cbv zeta. cbn [sent slept]. intros Hrec.
  destruct (IH _ _ Hrec) as (sleeps & Hslept & Hsent & _ & _ & Hshape).
  cbn [sent slept] in *.
  exists (GoInt.mul64 (GoInt.add64 retryCount 1) time.Second :: sleeps).
  split; [now rewrite Hslept, <- app_assoc|].
  split; [intros _; rewrite (Hsent eq_refl); cbn [length]; lia|].
  split; [congruence|]. split; [|exact Hshape].
  apply Z.leb_le in Hopt. lia.
Qed.

(** X16.  [queryServer], as [dynamodb.go] declares it, always opts in to
    the throttling retry: after [n] throttled responses in a row it has slept
    1, 2, ..., [n] seconds and returns the outcome of the next exchange. *)
Theorem queryServer_always_opts_in (fuel : nat) (s : Server) (target : string)
    (query : Query) (n : nat) (w : Net) :
  http_NewRequest_error (String.append (Region_DynamoDBEndpoint s) "/") = None ->
  Z.of_nat n <= max_seconds ->
  (forall i, (i < n)%nat ->
             throttled (http_Do (sent w + i) s target (Query_String query)) = true) ->
  throttled (http_Do (sent w + n) s target (Query_String query)) = false ->
  queryServer (S n + fuel) s target query w
  = Some (outcome (http_Do (sent w + n) s target (Query_String query)),
          mkNet (S (sent w + n)) (slept w ++ linear_sleeps 0 n)).
Proof.
  intros Hreq Hmax Hthr Hlast. unfold queryServer.
  replace (S n + fuel)%nat with (n + S fuel)%nat by lia.
  rewrite rawQueryServer_throttled_run by (assumption || lia).
  now rewrite rawQueryServer_final_step by assumption.
Qed.

(** X17.  An error response whose body is no JSON document is returned at
    once, for every [retryCount], as an [Error] with the status of the
    response, the code "Failed to parse body as JSON" and an empty message. *)
Theorem rawQueryServer_unparsable_error_body (fuel : nat) (s : Server)
    (target query : string) (retryCount : Z) (w : Net)
    (resp : Response) (body : string) (err : error) :
  http_NewRequest_error (String.append (Region_DynamoDBEndpoint s) "/") = None ->
  http_Do (sent w) s target query = Responded resp body ->
  resp_StatusCode resp <> 200 ->
  NewJson body = inl err ->
  rawQueryServer (S fuel) s target query retryCount w
  = Some ((EmptyString,
           Some (ErrDdb (mkError (resp_StatusCode resp) (resp_Status resp)
                                 "Failed to parse body as JSON" EmptyString))),
          mkNet (S (sent w)) (slept w)).
Proof.
  intros Hreq Hdo Hstatus Hjson.
  assert (Hbuild : buildError resp body
                   = mkError (resp_StatusCode resp) (resp_Status resp)
                             "Failed to parse body as JSON" EmptyString).
  { unfold buildError. now rewrite Hjson. }
  rewrite rawQueryServer_final_step; [| exact Hreq |].
  - rewrite Hdo. cbn [outcome]. apply Z.eqb_neq in Hstatus.
    now rewrite Hstatus, Hbuild.
  - rewrite Hdo. cbn [throttled]. rewrite Hbuild. cbn [Code].
    now rewrite andb_false_r.
Qed.

(** X18.  What [buildError] makes of a body that is a JSON document: the
    status is that of the response, the message is the string "message" (or
    empty); the code is what follows the first ['#'] of the string "__type"
    when that ['#'] is not its first byte, the whole string when it starts
    with ['#'] or has none, and empty when "__type" is missing or no string. *)
Theorem buildError_of_document (r : Response) (body : string) (doc : json) :
  NewJson body = inr doc ->
  let e := buildError r body in
  StatusCode e = resp_StatusCode r
  /\ Status e = resp_Status r
  /\ Message e = simplejson.MustString (simplejson.Get doc "message")
  /\ (forall ns rest,
        simplejson.Get doc "__type" = JString (String.append ns (String "#"%char rest)) ->
        no_hash ns = true -> ns <> EmptyString -> Code e = rest)
  /\ (forall rest,
        simplejson.Get doc "__type" = JString (String "#"%char rest) ->
        Code e = String "#"%char rest)
  /\ (forall ty, simplejson.Get doc "__type" = JString ty -> no_hash ty = true ->
                 Code e = ty)
  /\ ((forall ty, simplejson.Get doc "__type" <> JString ty) -> Code e = EmptyString).
Proof.
  intros Hdoc e. subst e. rewrite (buildError_code r body doc Hdoc).
  unfold buildError. rewrite Hdoc. cbn [StatusCode Status Message].
  split; [reflexivity|]. split; [reflexivity|]. split; [reflexivity|].
  split; [|split; [|split]].
  - intros ns rest Hty Hns Hne. rewrite Hty. cbn [simplejson.MustString].
    unfold strings.Index. cbv zeta. rewrite Index_from_no_hash by assumption.
    assert (0 < String.length ns)%nat by (destruct ns; [congruence | cbn; lia]).
    replace (0 <? 0 + Z.of_nat (String.length ns)) with true
      by (symmetry; apply Z.ltb_lt; lia).
    replace (Z.to_nat (0 + Z.of_nat (String.length ns) + 1))
      with (String.length (String.append ns "#")).
    + replace (String.append ns (String "#"%char rest))
        with (String.append (String.append ns "#") rest).
      * now rewrite slice_from_append.
      * clear. induction ns as [|c ns IH]; [reflexivity|].
        rewrite !append_cons. now rewrite IH.
    + clear. induction ns as [|c ns IH]; [reflexivity|].
      rewrite append_cons. cbn [String.length]. rewrite IH. lia.
  - intros rest Hty. rewrite Hty. cbn [simplejson.MustString].
    unfold strings.Index. cbv zeta. now destruct rest.
  - intros ty Hty Hno. rewrite Hty. cbn [simplejson.MustString].
    unfold strings.Index. cbv zeta. now rewrite Index_from_absent.
  - intros Hnone. destruct (simplejson.Get doc "__type"); try reflexivity.
    now destruct (Hnone s).
Qed.

End MoreTransport.

(** ** [RawQueryTable] and the queries built on it *)

Section Queries.

Context `{reader : JsonReader} `{numbers : NumberReader} `{transport : Transport}
        `{builder : Builder} `{querybuilder : !QueryBuilder}.

Lemma RawQueryTable_items_objects (l : list json) (n : nat) :
  forall (i : nat) (items : list (gmap string json)),
  take n (drop i l) = JObject <$> items ->
  length items = n ->
  RawQueryTable_items (JArray l) i n = Some (parseAttributes <$> items).
Proof.
  induction n as [|n IH]; intros i items Htake Hlen.
  - destruct items; [reflexivity | discriminate].
  - destruct items as [|item items]; [discriminate|].
    destruct (l !! i) as [x|] eqn:Hi.
    + rewrite (drop_S l x i Hi) in Htake. cbn in Htake.
      injection Htake as -> Htake.
      cbn [RawQueryTable_items]. unfold simplejson.GetIndex.
      cbn [simplejson.Array]. rewrite Hi. cbn [simplejson.Map].
      rewrite (IH (S i) items Htake) by (cbn in Hlen; lia). reflexivity.
    + apply lookup_ge_None in Hi. rewrite drop_ge in Htake by exact Hi. discriminate.
Qed.


(** [RawQueryTable] once the server has answered with a body. *)
Lemma RawQueryTable_answered (fuel : nat) (t : Table) (query target : string)
    (isRetry : bool) (w w' : Net) (body : string) :
  RawQueryTable_send fuel t query target isRetry w = Some ((body, None), w') ->
  RawQueryTable fuel t query target isRetry w
  = Some (RawQueryTable_decode t target body, w').
Proof. intros Hsend. unfold RawQueryTable. now rewrite Hsend. Qed.

(** X19.  When the response has an integer "Count" that is not negative and
    a list "Items" whose first "Count" members are objects, [RawQueryTable]
    returns the decoding of these members, in order, and no more of the
    list; the key is read by [parseKey] from "LastEvaluatedKey" when that is
    an object, and is [nil] otherwise. *)
Theorem RawQueryTable_items_of_count (fuel : nat) (t : Table) (query target : string)
    (isRetry : bool) (w w' : Net) (body : string) (fields : gmap string json)
    (n : string) (itemCount : Z) (l : list json) (items : list (gmap string json)) :
  RawQueryTable_send fuel t query target isRetry w = Some ((body, None), w') ->
  NewJson body = inr (JObject fields) ->
  fields !! "Count" = Some (JNumber n) ->
  Number_Int64 n = inr itemCount ->
  0 <= itemCount ->
  fields !! "Items" = Some (JArray l) ->
  take (Z.to_nat itemCount) l = JObject <$> items ->
  length items = Z.to_nat itemCount ->
  RawQueryTable fuel t query target isRetry w
  = Some (Returned (Some (parseAttributes <$> items),
                    match fields !! "LastEvaluatedKey" with
                    | Some (JObject lastKeyMap) => parseKey t lastKeyMap
                    | _ => None
                    end,
                    None), w').
Proof.
  intros Hsend Hjson Hcount Hint Hpos Hitems Htake Hlen.
  rewrite (RawQueryTable_answered _ _ _ _ _ _ _ _ Hsend).
  unfold RawQueryTable_decode. rewrite Hjson.
  unfold simplejson.Int, simplejson.Int64, simplejson.Get. cbn [simplejson.Map].
  rewrite Hcount, Hint, Hitems.
  replace (itemCount <? 0) with false by (symmetry; apply Z.ltb_ge; lia).
  rewrite (RawQueryTable_items_objects l _ 0 items) by (rewrite ?drop_0; assumption).
  do 4 f_equal.
  destruct (fields !! "LastEvaluatedKey") as [[| | | | |m]|]; reflexivity.
Qed.


(** X21.  When "Count" is missing, is no number or is no integer:
    for the target "UpdateItem" [RawQueryTable] returns an empty list that
    is not [nil], with a [nil] key and a [nil] error; for every other target
    it returns the error "Unexpected response" with the body. *)
Theorem RawQueryTable_without_count (fuel : nat) (t : Table) (query target : string)
    (isRetry : bool) (w w' : Net) (body : string) (fields : gmap string json) :
  RawQueryTable_send fuel t query target isRetry w = Some ((body, None), w') ->
  NewJson body = inr (JObject fields) ->
  (forall n, fields !! "Count" <> Some (JNumber n))
  \/ (exists n err, fields !! "Count" = Some (JNumber n) /\ Number_Int64 n = inl err) ->
  (target = "UpdateItem" ->
   RawQueryTable fuel t query target isRetry w = Some (Returned (Some [], None, None), w'))
  /\ (target <> "UpdateItem" ->
      RawQueryTable fuel t query target isRetry w
      = Some (Returned (None, None,
                        Some (ErrNew (String.append "Unexpected response " body))), w')).
Proof.
  intros Hsend Hjson Hcount.
  rewrite (RawQueryTable_answered _ _ _ _ _ _ _ _ Hsend).
  unfold RawQueryTable_decode. rewrite Hjson.
  assert (Hint : exists err, simplejson.Int (simplejson.Get (JObject fields) "Count")
                             = inl err).
  { unfold simplejson.Int, simplejson.Int64, simplejson.Get. cbn [simplejson.Map].
    destruct Hcount as [Hnone | (n & err & Hn & Herr)].
    - destruct (fields !! "Count") as [[| |n| | |]|]; try (eexists; reflexivity).
      now destruct (Hnone n).
    - rewrite Hn, Herr. now eexists. }
  destruct Hint as [err ->]. split.
  - intros ->. reflexivity.
  - intros Hne. apply String.eqb_neq in Hne. now rewrite Hne.
Qed.

(** X22.  A negative "Count" makes [RawQueryTable] panic, in the [make] of
    the result slice. *)
Theorem RawQueryTable_negative_count (fuel : nat) (t : Table) (query target : string)
    (isRetry : bool) (w w' : Net) (body : string) (fields : gmap string json)
    (n : string) (itemCount : Z) :
  RawQueryTable_send fuel t query target isRetry w = Some ((body, None), w') ->
  NewJson body = inr (JObject fields) ->
  fields !! "Count" = Some (JNumber n) ->
  Number_Int64 n = inr itemCount ->
  itemCount < 0 ->
  exists msg, RawQueryTable fuel t query target isRetry w = Some (Panicked msg, w').
Proof.
  intros Hsend Hjson Hcount Hint Hneg.
  rewrite (RawQueryTable_answered _ _ _ _ _ _ _ _ Hsend).
  unfold RawQueryTable_decode. rewrite Hjson.
  unfold simplejson.Int, simplejson.Int64, simplejson.Get. cbn [simplejson.Map].
  rewrite Hcount, Hint.
  replace (itemCount <? 0) with true by (symmetry; apply Z.ltb_lt; lia).
  now eexists.
Qed.

(** X23.  The four queries of a table ([Query], [QueryOnIndex],
    [LimitedQuery], [LimitedQueryOnIndex]) send the target "Query": a
    response without an integer "Count" is always the error "Unexpected
    response" for them, with [nil] items; the tolerance that [RawQueryTable]
    has for "UpdateItem" never applies. *)
Theorem table_queries_need_count (fuel : nat) (t : Table)
    (attributeComparisons : list AttributeComparison) (indexName : string) (limit : Z)
    (isRetry : bool) (w w' : Net) (body : string) (fields : gmap string json) :
  (forall query, RawQueryTable_send fuel t query "Query" isRetry w
                 = Some ((body, None), w')) ->
  NewJson body = inr (JObject fields) ->
  (forall n, fields !! "Count" <> Some (JNumber n))
  \/ (exists n err, fields !! "Count" = Some (JNumber n) /\ Number_Int64 n = inl err) ->
  let failed :=
    Some (Returned (None, Some (ErrNew (String.append "Unexpected response " body))), w') in
  Table_Query fuel t attributeComparisons isRetry w = failed
  /\ QueryOnIndex fuel t attributeComparisons indexName isRetry w = failed
  /\ LimitedQuery fuel t attributeComparisons limit isRetry w = failed
  /\ LimitedQueryOnIndex fuel t attributeComparisons indexName limit isRetry w = failed.
Proof.
  intros Hsend Hjson Hcount failed. subst failed.
  assert (Hrun : forall q, RunQuery fuel q t isRetry w
            = Some (Returned (None, Some (ErrNew (String.append "Unexpected response " body))),
                    w')).
  { intros q. unfold RunQuery, QueryTable.
    rewrite (RawQueryTable_answered _ _ _ _ _ _ _ _ (Hsend (Query_String q))).
    unfold RawQueryTable_decode. rewrite Hjson.
    assert (Hint : exists err, simplejson.Int (simplejson.Get (JObject fields) "Count")
                               = inl err).
    { unfold simplejson.Int, simplejson.Int64, simplejson.Get. cbn [simplejson.Map].
      destruct Hcount as [Hnone | (n & err & Hn & Herr)].
      - destruct (fields !! "Count") as [[| |n| | |]|]; try (eexists; reflexivity).
        now destruct (Hnone n).
      - rewrite Hn, Herr. now eexists. }
    destruct Hint as [err ->]. reflexivity. }
  unfold Table_Query, QueryOnIndex, LimitedQuery, LimitedQueryOnIndex.
  now rewrite !Hrun.
Qed.

(** X24.  A query of a table returns the items that [RawQueryTable]
    decodes and drops the key to go on from: with "Count" and "Items" as in
    X19 the result is the decoded items and a [nil] error, whether
    "LastEvaluatedKey" is there or not. *)
Theorem Table_Query_items (fuel : nat) (t : Table)
    (attributeComparisons : list AttributeComparison)
    (isRetry : bool) (w w' : Net) (body : string) (fields : gmap string json)
    (n : string) (itemCount : Z) (l : list json) (items : list (gmap string json)) :
  (forall query, RawQueryTable_send fuel t query "Query" isRetry w
                 = Some ((body, None), w')) ->
  NewJson body = inr (JObject fields) ->
  fields !! "Count" = Some (JNumber n) ->
  Number_Int64 n = inr itemCount ->
  0 <= itemCount ->
  fields !! "Items" = Some (JArray l) ->
  take (Z.to_nat itemCount) l = JObject <$> items ->
  length items = Z.to_nat itemCount ->
  Table_Query fuel t attributeComparisons isRetry w
  = Some (Returned (Some (parseAttributes <$> items), None), w').
Proof.
  intros Hsend Hjson Hcount Hint Hpos Hitems Htake Hlen.
  unfold Table_Query, RunQuery, QueryTable.
  rewrite (RawQueryTable_answered _ _ _ _ _ _ _ _ (Hsend _)).
  unfold RawQueryTable_decode. rewrite Hjson.
  unfold simplejson.Int, simplejson.Int64, simplejson.Get. cbn [simplejson.Map].
  rewrite Hcount, Hint, Hitems.
  replace (itemCount <? 0) with false by (symmetry; apply Z.ltb_ge; lia).
  now rewrite (RawQueryTable_items_objects l _ 0 items) by (rewrite ?drop_0; assumption).
Qed.

End Queries.

(** ** The properties on the scenarios *)

(** One reply that is a success: each operation leaves one call behind. *)
Lemma one_call_per_operation_witness :
  let remote := scripted_Remote [("{}", None)] in
  let w := mkCalls 0 [] in
  let w' := mkCalls 1 [] in
  snd (@getItem demo_reader _ remote test_server "k" false true w) = w'
  /\ snd (@modifyAttributes demo_reader _ remote test_server "k" one_attribute None
                            "PUT" true w) = w'
  /\ snd (@deleteItem demo_reader _ remote test_server "k" None true w) = w'
  /\ snd (@BatchWriteItem_Execute demo_reader _ remote test_batch true w) = w'
  /\ snd (@BatchGetItem_Execute demo_reader _ remote recording_QueryBuilder
                                test_batch_get true w) = w'
  /\ snd (@CountQuery demo_reader decimal_NumberReader _ remote recording_QueryBuilder
                      test_server ["id EQ 1"] true w) = w'.
Proof.
  intros remote w w'.
  apply (one_call_per_operation (reader := demo_reader) (numbers := decimal_NumberReader)
           (remote := remote) (querybuilder := recording_QueryBuilder)
           test_server "k" one_attribute None "PUT" false true test_batch test_batch_get
           ["id EQ 1"] w).
  discriminate.
Defined.

(** A transport error on the only call. *)
Lemma server_error_is_returned_witness :
  let remote := scripted_Remote [] in
  let w := mkCalls 0 [] in
  let err := Some (ErrExt "connection refused") in
  fst (@getItem demo_reader _ remote test_server "k" false true w) = (None, err)
  /\ fst (@modifyAttributes demo_reader _ remote test_server "k" one_attribute None
                            "PUT" true w) = (false, err)
  /\ fst (@deleteItem demo_reader _ remote test_server "k" None true w) = (false, err)
  /\ fst (@BatchWriteItem_Execute demo_reader _ remote test_batch true w) = (None, err)
  /\ fst (@BatchGetItem_Execute demo_reader _ remote recording_QueryBuilder
                                test_batch_get true w) = (None, err)
  /\ fst (@CountQuery demo_reader decimal_NumberReader _ remote recording_QueryBuilder
                      test_server ["id EQ 1"] true w) = (0, err).
Proof.
  intros remote w err.
  apply (server_error_is_returned (reader := demo_reader) (numbers := decimal_NumberReader)
           (remote := remote) (querybuilder := recording_QueryBuilder)
           test_server "k" one_attribute None "PUT" false true test_batch test_batch_get
           ["id EQ 1"] w EmptyString (ErrExt "connection refused")).
  - discriminate.
  - reflexivity.
Defined.

(** A reply with an empty document: the update and the delete succeed. *)
Lemma update_and_delete_succeed_iff_witness :
  let remote := scripted_Remote [("{}", None)] in
  let w := mkCalls 0 [] in
  fst (@modifyAttributes demo_reader _ remote test_server "k" one_attribute None "ADD" true w)
  = (true, None)
  /\ fst (@deleteItem demo_reader _ remote test_server "k" None true w) = (true, None).
Proof.
  intros remote w.
  destruct (update_and_delete_succeed_iff (reader := demo_reader) (remote := remote)
              test_server "k" one_attribute None "ADD" true w "{}" None
              ltac:(discriminate) ltac:(reflexivity)) as [Hupdate Hdelete].
  split; [apply Hupdate | apply Hdelete]; (split; [reflexivity | eexists; reflexivity]).
Defined.

(** A reply without error whose body is a page of HTML. *)
Lemma putItem_first_reply_without_error_witness :
  @putItem demo_reader _ (scripted_Remote [("<html>", None)]) test_server "h" "r"
           one_attribute None true (mkCalls 0 [])
  = ((false, Some (ErrExt "invalid character looking for beginning of value")),
     mkCalls 1 []).
Proof.
  apply (putItem_first_reply_without_error (reader := demo_reader)
           (remote := scripted_Remote [("<html>", None)])
           test_server "h" "r" one_attribute None true (mkCalls 0 []) "<html>").
  - discriminate.
  - reflexivity.
Defined.

(** An item with one attribute, and an "Item" that is null. *)
Lemma getItem_item_field_witness :
  let w := mkCalls 0 [] in
  @getItem demo_reader _ (scripted_Remote [("bob", None)]) test_server "k" false true w
  = ((Some (parseAttributes wire_bob), None), mkCalls 1 [])
  /\ @getItem demo_reader _ (scripted_Remote [("null item", None)]) test_server "k"
              false true w
     = ((None, Some (ErrNew "Unexpected response null item")), mkCalls 1 []).
Proof.
  intros w. split.
  - apply (getItem_item_field (reader := demo_reader)
             (remote := scripted_Remote [("bob", None)])
             test_server "k" false true w "bob" {["Item" := JObject wire_bob]}
             (JObject wire_bob)); reflexivity.
  - apply (getItem_item_field (reader := demo_reader)
             (remote := scripted_Remote [("null item", None)])
             test_server "k" false true w "null item" {["Item" := JNull]} JNull);
      reflexivity.
Defined.

(** Two items for the table [T]. *)
Lemma BatchGetItem_Execute_decodes_witness :
  @BatchGetItem_Execute demo_reader _ (scripted_Remote [("batch", None)])
                        recording_QueryBuilder test_batch_get true (mkCalls 0 [])
  = ((Some ((fun items : list (gmap string json) => parseAttributes <$> items)
              <$> {["T" := [wire_bob; wire_eve]]}), None),
     mkCalls 1 []).
Proof.
  apply (BatchGetItem_Execute_decodes (reader := demo_reader)
           (remote := scripted_Remote [("batch", None)])
           (querybuilder := recording_QueryBuilder)
           test_batch_get true (mkCalls 0 []) "batch"
           {["Responses" := JObject {["T" := JArray [JObject wire_bob; JObject wire_eve]]}]}
           {["T" := [wire_bob; wire_eve]]}).
  - reflexivity.
  - reflexivity.
  - rewrite lookup_singleton_eq, map_fmap_singleton. reflexivity.
Defined.

(** A table whose value is a string. *)
Lemma BatchGetItem_Execute_malformed_witness :
  @BatchGetItem_Execute demo_reader _ (scripted_Remote [("bad batch", None)])
                        recording_QueryBuilder test_batch_get true (mkCalls 0 [])
  = ((None, Some (ErrNew "Unexpected response bad batch")), mkCalls 1 []).
Proof.
  apply (BatchGetItem_Execute_malformed (reader := demo_reader)
           (remote := scripted_Remote [("bad batch", None)])
           (querybuilder := recording_QueryBuilder)
           test_batch_get true (mkCalls 0 []) "bad batch"
           {["Responses" := JObject {["T" := JString "oops"]}]}).
  - reflexivity.
  - reflexivity.
  - right. exists {["T" := JString "oops"]}, "T", (JString "oops").
    split; [apply lookup_singleton_eq|]. split; [apply lookup_singleton_eq|].
    left. discriminate.
Defined.

(** An empty document in answer to a batch write. *)
Lemma BatchWriteItem_Execute_malformed_witness :
  @BatchWriteItem_Execute demo_reader _ (scripted_Remote [("{}", None)])
                          test_batch true (mkCalls 0 [])
  = ((None, Some (ErrNew "Unexpected response {}")), mkCalls 1 []).
Proof.
  apply (BatchWriteItem_Execute_malformed (reader := demo_reader)
           (remote := scripted_Remote [("{}", None)])
           test_batch true (mkCalls 0 []) "{}" ∅).
  - reflexivity.
  - reflexivity.
  - intros unprocessed. rewrite lookup_empty. discriminate.
Defined.

(** A count of 2. *)
Lemma CountQuery_count_witness :
  fst (@CountQuery demo_reader decimal_NumberReader _ (scripted_Remote [("page", None)])
                   recording_QueryBuilder test_server ["id EQ 1"] true (mkCalls 0 []))
  = (2, None).
Proof.
  destruct (CountQuery_count (reader := demo_reader) (numbers := decimal_NumberReader)
              (remote := scripted_Remote [("page", None)])
              (querybuilder := recording_QueryBuilder)
              test_server ["id EQ 1"] true (mkCalls 0 []) "page"
              (<["Count" := JNumber "2"]>
                 (<["Items" := JArray [JObject wire_bob; JObject wire_eve]]>
                    {["LastEvaluatedKey" :=
                        JObject {["hash" := JObject {["S" := JString "eve"]}]}]}))
              ltac:(reflexivity) ltac:(reflexivity)) as [Hcount _].
  apply (Hcount "2" 2); reflexivity.
Defined.

(** A response 500 with the code ThrottlingException, the caller having
    opted in: one request, no sleep. *)
Lemma rawQueryServer_returns_at_once_witness :
  let transport := scripted_Transport
                     [Responded (mkResponse 500 "500 Internal Server Error") "throttling"] in
  @rawQueryServer demo_reader transport 1 test_server "DynamoDB_20120810.PutItem" "q" 0
                  (mkNet 0 [])
  = Some ((EmptyString,
           Some (ErrDdb (mkError 500 "500 Internal Server Error" "ThrottlingException"
                                 EmptyString))),
          mkNet 1 []).
Proof.
  intros transport.
  apply (rawQueryServer_returns_at_once (reader := demo_reader) (transport := transport)
           0 test_server "DynamoDB_20120810.PutItem" "q" 0 (mkNet 0 []));
    reflexivity.
Defined.

(** Two throttled responses and a success: two sleeps, three requests. *)
Lemma rawQueryServer_requests_and_sleeps_witness :
  exists sleeps : list Z,
    [1 * time.Second; 2 * time.Second] = [] ++ sleeps
    /\ (@None error = None -> 3%nat = (0 + S (length sleeps))%nat)
    /\ (@None error <> None -> mkNet 3 [1 * time.Second; 2 * time.Second] = mkNet 0 [])
    /\ (0 < 0 -> sleeps = [])
    /\ (@None error = None \/ "{}" = EmptyString).
Proof.
  apply (rawQueryServer_requests_and_sleeps (reader := demo_reader)
           (transport := scripted_Transport
                           [throttling_exchange; throttling_exchange; ok_200 "{}"])
           3 test_server "DynamoDB_20120810.Query" "q" 0 (mkNet 0 [])
           (mkNet 3 [1 * time.Second; 2 * time.Second]) ("{}", None)).
  reflexivity.
Defined.

(** The same exchanges through [queryServer]. *)
Lemma queryServer_always_opts_in_witness :
  @queryServer demo_reader
     (scripted_Transport [throttling_exchange; throttling_exchange; ok_200 "{}"])
     recording_Builder 3 test_server "DynamoDB_20120810.GetItem" ["q"] (mkNet 0 [])
  = Some (("{}", None), mkNet 3 [1 * time.Second; 2 * time.Second]).
Proof.
  apply (queryServer_always_opts_in (reader := demo_reader)
           (transport := scripted_Transport
                           [throttling_exchange; throttling_exchange; ok_200 "{}"])
           (builder := recording_Builder)
           0 test_server "DynamoDB_20120810.GetItem" ["q"] 2 (mkNet 0 [])).
  - reflexivity.
  - unfold max_seconds. lia.
  - intros i Hi. do 2 (destruct i as [|i]; [reflexivity|]). lia.
  - reflexivity.
Defined.

(** A response 502 with a page of HTML. *)
Lemma rawQueryServer_unparsable_error_body_witness :
  @rawQueryServer demo_reader
     (scripted_Transport [Responded (mkResponse 502 "502 Bad Gateway") "<html>"])
     1 test_server "DynamoDB_20120810.GetItem" "q" 0 (mkNet 0 [])
  = Some ((EmptyString,
           Some (ErrDdb (mkError 502 "502 Bad Gateway" "Failed to parse body as JSON"
                                 EmptyString))),
          mkNet 1 []).
Proof.
  apply (rawQueryServer_unparsable_error_body (reader := demo_reader)
           (transport := scripted_Transport
                           [Responded (mkResponse 502 "502 Bad Gateway") "<html>"])
           0 test_server "DynamoDB_20120810.GetItem" "q" 0 (mkNet 0 [])
           (mkResponse 502 "502 Bad Gateway") "<html>"
           (ErrExt "invalid character looking for beginning of value"));
    (reflexivity || discriminate).
Defined.

(** The type string of a validation error. *)
Lemma buildError_of_document_witness :
  let e := @buildError demo_reader (mkResponse 400 "400 Bad Request") "coral" in
  Code e = "ValidationException" /\ Message e = "bad request" /\ StatusCode e = 400.
Proof.
  intros e.
  destruct (buildError_of_document (reader := demo_reader)
              (mkResponse 400 "400 Bad Request") "coral"
              (JObject (<["__type" := JString "com.amazon.coral.validate#ValidationException"]>
                          {["message" := JString "bad request"]}))
              ltac:(reflexivity)) as (Hstatus & _ & Hmessage & Hcode & _).
  split; [|split; [exact Hmessage | exact Hstatus]].
  apply (Hcode "com.amazon.coral.validate" "ValidationException");
    (reflexivity || discriminate).
Defined.

(** A page of two items with a key to go on from. *)
Lemma RawQueryTable_items_of_count_witness :
  @RawQueryTable demo_reader decimal_NumberReader (scripted_Transport [ok_200 "page"])
                 recording_Builder recording_QueryBuilder
                 1 test_server "q" "Query" true (mkNet 0 [])
  = Some (Returned (Some (parseAttributes <$> [wire_bob; wire_eve]), Some "eve", None),
          mkNet 1 []).
Proof.
  etransitivity.
  - apply (RawQueryTable_items_of_count (reader := demo_reader)
             (numbers := decimal_NumberReader)
             (transport := scripted_Transport [ok_200 "page"])
             (builder := recording_Builder) (querybuilder := recording_QueryBuilder)
             1 test_server "q" "Query" true (mkNet 0 []) (mkNet 1 []) "page"
             (<["Count" := JNumber "2"]>
                (<["Items" := JArray [JObject wire_bob; JObject wire_eve]]>
                   {["LastEvaluatedKey" :=
                       JObject {["hash" := JObject {["S" := JString "eve"]}]}]}))
             "2" 2 [JObject wire_bob; JObject wire_eve] [wire_bob; wire_eve]);
      (reflexivity || lia).
  - reflexivity.
Defined.


(** An empty document, for the target UpdateItem and for the target Scan. *)
Lemma RawQueryTable_without_count_witness :
  let transport := scripted_Transport [ok_200 "{}"] in
  @RawQueryTable demo_reader decimal_NumberReader transport
                 recording_Builder recording_QueryBuilder
                 1 test_server "q" "UpdateItem" true (mkNet 0 [])
  = Some (Returned (Some [], None, None), mkNet 1 [])
  /\ @RawQueryTable demo_reader decimal_NumberReader transport
                    recording_Builder recording_QueryBuilder
                    1 test_server "q" "Scan" true (mkNet 0 [])
     = Some (Returned (None, None, Some (ErrNew "Unexpected response {}")), mkNet 1 []).
Proof.
  intros transport. split.
  - apply (RawQueryTable_without_count (reader := demo_reader)
             (numbers := decimal_NumberReader) (transport := transport)
             (builder := recording_Builder) (querybuilder := recording_QueryBuilder)
             1 test_server "q" "UpdateItem" true (mkNet 0 []) (mkNet 1 []) "{}" ∅);
      [reflexivity | reflexivity | | reflexivity].
    left. intros n. rewrite lookup_empty. discriminate.
  - apply (RawQueryTable_without_count (reader := demo_reader)
             (numbers := decimal_NumberReader) (transport := transport)
             (builder := recording_Builder) (querybuilder := recording_QueryBuilder)
             1 test_server "q" "Scan" true (mkNet 0 []) (mkNet 1 []) "{}" ∅);
      [reflexivity | reflexivity | | discriminate].
    left. intros n. rewrite lookup_empty. discriminate.
Defined.

(** A count of -1. *)
Lemma RawQueryTable_negative_count_witness :
  exists msg,
    @RawQueryTable demo_reader decimal_NumberReader (scripted_Transport [ok_200 "negative"])
                   recording_Builder recording_QueryBuilder
                   1 test_server "q" "Query" true (mkNet 0 [])
    = Some (Panicked msg, mkNet 1 []).
Proof.
  apply (RawQueryTable_negative_count (reader := demo_reader)
           (numbers := decimal_NumberReader)
           (transport := scripted_Transport [ok_200 "negative"])
           (builder := recording_Builder) (querybuilder := recording_QueryBuilder)
           1 test_server "q" "Query" true (mkNet 0 []) (mkNet 1 []) "negative"
           {["Count" := JNumber "-1"]} "-1" (-1));
    (reflexivity || lia).
Defined.

(** An empty document in answer to each of the four queries. *)
Lemma table_queries_need_count_witness :
  let transport := scripted_Transport [ok_200 "{}"] in
  let failed := Some (Returned (None, Some (ErrNew "Unexpected response {}")), mkNet 1 []) in
  @Table_Query demo_reader decimal_NumberReader transport recording_Builder
               recording_QueryBuilder 1 test_server ["id EQ 1"] true (mkNet 0 []) = failed
  /\ @QueryOnIndex demo_reader decimal_NumberReader transport recording_Builder
                   recording_QueryBuilder 1 test_server ["id EQ 1"] "by-name" true
                   (mkNet 0 []) = failed
  /\ @LimitedQuery demo_reader decimal_NumberReader transport recording_Builder
                   recording_QueryBuilder 1 test_server ["id EQ 1"] 10 true
                   (mkNet 0 []) = failed
  /\ @LimitedQueryOnIndex demo_reader decimal_NumberReader transport recording_Builder
                          recording_QueryBuilder 1 test_server ["id EQ 1"] "by-name" 10 true
                          (mkNet 0 []) = failed.
Proof.
  intros transport failed.
  apply (table_queries_need_count (reader := demo_reader)
           (numbers := decimal_NumberReader) (transport := transport)
           (builder := recording_Builder) (querybuilder := recording_QueryBuilder)
           1 test_server ["id EQ 1"] "by-name" 10 true (mkNet 0 []) (mkNet 1 []) "{}" ∅);
    [reflexivity | reflexivity |].
  left. intros n. rewrite lookup_empty. discriminate.
Defined.

(** A page of two items in answer to [Query]: the key is dropped. *)
Lemma Table_Query_items_witness :
  @Table_Query demo_reader decimal_NumberReader (scripted_Transport [ok_200 "page"])
               recording_Builder recording_QueryBuilder
               1 test_server ["id EQ 1"] true (mkNet 0 [])
  = Some (Returned (Some (parseAttributes <$> [wire_bob; wire_eve]), None), mkNet 1 []).
Proof.
  apply (Table_Query_items (reader := demo_reader)
           (numbers := decimal_NumberReader)
           (transport := scripted_Transport [ok_200 "page"])
           (builder := recording_Builder) (querybuilder := recording_QueryBuilder)
           1 test_server ["id EQ 1"] true (mkNet 0 []) (mkNet 1 []) "page"
           (<["Count" := JNumber "2"]>
              (<["Items" := JArray [JObject wire_bob; JObject wire_eve]]>
                 {["LastEvaluatedKey" :=
                     JObject {["hash" := JObject {["S" := JString "eve"]}]}]}))
           "2" 2 [JObject wire_bob; JObject wire_eve] [wire_bob; wire_eve]);
    (reflexivity || lia).
Defined.

(** ** The time spent waiting *)

Lemma total_app (l1 l2 : list Z) : total (l1 ++ l2) = total l1 + total l2.
Proof.
  unfold total. induction l1 as [|d l1 IH]; cbn; [reflexivity|]. rewrite IH. lia.
Qed.

Lemma total_linear_sleeps (retryCount : Z) (n : nat) :
  2 * total (linear_sleeps retryCount n)
  = Z.of_nat n * (2 * retryCount + Z.of_nat n + 1) * time.Second.
Proof.
  revert retryCount. induction n as [|n IH]; intros retryCount; [reflexivity|].
  cbn [linear_sleeps]. change (total (?d :: ?l)) with (d + total l).
  rewrite Z.mul_add_distr_l, IH. change time.Second with 1000000000. lia.
Qed.


(** X26.  After [n] throttled responses in a row, [queryServer] has slept
    1 + 2 + ... + [n] seconds, that is n(n+1)/2 seconds, on top of the sleeps
    before the call. *)
Theorem queryServer_total_sleep `{reader : JsonReader} `{transport : Transport}
    `{builder : Builder} (fuel : nat) (s : Server) (target : string)
    (query : Query) (n : nat) (w : Net) :
  http_NewRequest_error (String.append (Region_DynamoDBEndpoint s) "/") = None ->
  Z.of_nat n <= max_seconds ->
  (forall i, (i < n)%nat ->
             throttled (http_Do (sent w + i) s target (Query_String query)) = true) ->
  throttled (http_Do (sent w + n) s target (Query_String query)) = false ->
  exists (res : QResult) (w' : Net),
    queryServer (S n + fuel) s target query w = Some (res, w')
    /\ 2 * total (slept w')
       = 2 * total (slept w) + Z.of_nat n * (Z.of_nat n + 1) * time.Second.
Proof.
  intros Hreq Hmax Hthr Hlast. unfold queryServer.
  replace (S n + fuel)%nat with (n + S fuel)%nat by lia.
  rewrite rawQueryServer_throttled_run by (assumption || lia).
  rewrite rawQueryServer_final_step by assumption.
  eexists _, _. split; [reflexivity|]. cbn [slept].
  rewrite total_app, Z.mul_add_distr_l, total_linear_sleeps. lia.
Qed.

(** Three throttled responses: six seconds of sleep. *)
Lemma queryServer_total_sleep_witness :
  exists (res : QResult) (w' : Net),
    @queryServer demo_reader
       (scripted_Transport [throttling_exchange; throttling_exchange;
                            throttling_exchange; ok_200 "{}"])
       recording_Builder 4 test_server "DynamoDB_20120810.GetItem" ["q"] (mkNet 0 [])
    = Some (res, w')
    /\ 2 * total (slept w') = 2 * total [] + Z.of_nat 3 * (Z.of_nat 3 + 1) * time.Second.
Proof.
  apply (queryServer_total_sleep (reader := demo_reader)
           (transport := scripted_Transport [throttling_exchange; throttling_exchange;
                                             throttling_exchange; ok_200 "{}"])
           (builder := recording_Builder)
           0 test_server "DynamoDB_20120810.GetItem" ["q"] 3 (mkNet 0 [])).
  - reflexivity.
  - unfold max_seconds. lia.
  - intros i Hi. do 3 (destruct i as [|i]; [reflexivity|]). lia.
  - reflexivity.
Defined.
